(** * weather_tool: the cache, the fetch client and the weather models

    A shallow embedding of [src/weather_tool] (client.py, models.py,
    exceptions.py, settings.py) and the properties of its cache store,
    fetch client, response parser and adapters.

    Conventions of the model:
    - a Python [str] is a [string] holding its text; [str.strip] and
      [str.lower], whose Unicode tables are not part of the repository,
      are parameters ([str_strip], [str_lower]); module [PyStr] holds
      their ASCII parts, the instance that the examples run on;
    - a [datetime] is a number of microseconds, a [timedelta] a difference
      of two of them: Python computes both exactly;
    - a finite [float] is the rational it denotes; [round(v, 1)] is the
      decimal rounding (half to even) of that rational;
    - every [datetime.now()] of a call is a reading supplied by the caller
      of the model, the remote service is a function from requests to
      outcomes, and the requests issued are returned as a list;
    - [logger] calls are left out, except the one line that is the only
      user of a computed value ([clear_cache]). *)

From Stdlib Require Import ZArith QArith String Ascii List Lia Bool.
From stdpp Require Import base option strings gmap pretty.

Import ListNotations.
Local Open Scope string_scope.
Local Open Scope Z_scope.

(** ** Python strings *)

(** The truth value of a [str], and the ASCII parts of [str.isspace],
    [str.lower] and [str.strip]. The model of the tool uses [truthy]
    only: it takes [str.strip] and [str.lower] as parameters. [strip] and
    [lower] here agree with the built-ins on ASCII text; they are the
    instance on which the examples, all of ASCII city names, run. *)
Module PyStr.

(** [str.isspace] on the ASCII range: tab, line feed, vertical tab, form
    feed, carriage return, the four separators 28..31 and the space. *)
Definition isspace (c : ascii) : bool :=
  let n := nat_of_ascii c in
  ((9 <=? n)%nat && (n <=? 13)%nat)
  || ((28 <=? n)%nat && (n <=? 32)%nat).

Definition lower_char (c : ascii) : ascii :=
  let n := nat_of_ascii c in
  if ((65 <=? n)%nat && (n <=? 90)%nat)%bool
  then ascii_of_nat (n + 32) else c.

Fixpoint lower (s : string) : string :=
  match s with
  | EmptyString => EmptyString
  | String c s' => String (lower_char c) (lower s')
  end.

Fixpoint lstrip (s : string) : string :=
  match s with
  | EmptyString => EmptyString
  | String c s' => if isspace c then lstrip s' else s
  end.

(** [rstrip]: a character is dropped when it is white space and nothing
    is left to its right. *)
Fixpoint rstrip (s : string) : string :=
  match s with
  | EmptyString => EmptyString
  | String c s' =>
      match rstrip s' with
      | EmptyString => if isspace c then EmptyString else String c EmptyString
      | r => String c r
      end
  end.

Definition strip (s : string) : string := rstrip (lstrip s).

(** Truth value of a [str]: empty is false. *)
Definition truthy (s : string) : bool :=
  match s with EmptyString => false | _ => true end.

Fixpoint blank (s : string) : bool :=
  match s with
  | EmptyString => true
  | String c s' => isspace c && blank s'
  end.

End PyStr.

(** ** Exceptions (exceptions.py and the library ones the client meets) *)

Inductive exn : Type :=
  (* exceptions.py *)
  | WeatherAPIError (msg : string)
  | CityNotFoundError (msg : string)
  | InvalidAPIKeyError (msg : string)
  | NetworkError (msg : string)
  (* requests.exceptions *)
  | HTTPError (msg : string)
  | Timeout
  | RequestException (msg : string)
  | JSONDecodeError
  (* built-ins and pydantic *)
  | KeyError (key : string)
  | TypeError
  | AttributeError
  | IndexError
  | UnboundLocalError
  | ValidationError (model : string).

(** The class tests behind the [except] clauses of [_fetch_from_api].
    [HTTPError], [Timeout] and (requests >= 2.27) [JSONDecodeError] are
    subclasses of [RequestException]. *)
Definition is_HTTPError (e : exn) : bool :=
  match e with HTTPError _ => true | _ => false end.

Definition is_Timeout (e : exn) : bool :=
  match e with Timeout => true | _ => false end.

Definition is_RequestException (e : exn) : bool :=
  match e with
  | HTTPError _ | Timeout | RequestException _ | JSONDecodeError => true
  | _ => false
  end.

Definition is_KeyError (e : exn) : bool :=
  match e with KeyError _ => true | _ => false end.

(** The classes of exceptions.py, all of them [WeatherAPIError]s. *)
Definition is_WeatherAPIError (e : exn) : bool :=
  match e with
  | WeatherAPIError _ | CityNotFoundError _
  | InvalidAPIKeyError _ | NetworkError _ => true
  | _ => false
  end.

(** ** Results: a value or a raised exception *)

Inductive result (A : Type) : Type :=
  | Ok (a : A)
  | Err (e : exn).

Arguments Ok {A} a.
Arguments Err {A} e.

Definition bind {A B : Type} (r : result A) (k : A -> result B) : result B :=
  match r with
  | Ok a => k a
  | Err e => Err e
  end.

Notation "'let*' x ':=' r 'in' k" := (bind r (fun x => k))
  (at level 10, x pattern, r at level 100, k at level 200).

Definition is_ok {A : Type} (r : result A) : bool :=
  match r with Ok _ => true | Err _ => false end.

Fixpoint mapM {A B : Type} (f : A -> result B) (l : list A)
  : result (list B) :=
  match l with
  | [] => Ok []
  | x :: l' => let* y := f x in let* ys := mapM f l' in Ok (y :: ys)
  end.

(** ** Time *)

(** Microseconds; the origin does not matter. *)
Definition Time : Type := Z.

Definition minutes (n : Z) : Z := n * 60 * 1000000.

(** ** models.py *)

Record WeatherMain : Type := mkWeatherMain {
  temp : Q;
  temp_min : Q;
  temp_max : Q;
  humidity : Z;
  feels_like : Q
}.

(** [round(v, 1)]: the nearest multiple of 1/10, ties to the even one. *)
Definition round_half_even (q : Q) : Z :=
  let n := Qnum q in
  let d := Zpos (Qden q) in
  let fl := n / d in
  let r := n mod d in
  match 2 * r ?= d with
  | Lt => fl
  | Gt => fl + 1
  | Eq => if Z.even fl then fl else fl + 1
  end.

Definition round1 (v : Q) : Q := Qmake (round_half_even (v * (10 # 1))) 10.

(** [@validator('temp', 'temp_min', 'temp_max') validate_temperature]. *)
Definition validate_temperature (v : Q) : result Q :=
  if negb (Qle_bool (-50 # 1) v && Qle_bool v (60 # 1))
  then Err (ValidationError "WeatherMain")
  else Ok (round1 v).

(** [humidity: int = Field(..., ge=0, le=100)]. *)
Definition validate_humidity (h : Z) : result Z :=
  if (0 <=? h) && (h <=? 100) then Ok h
  else Err (ValidationError "WeatherMain").

(** Construction of a [WeatherMain] from typed values. pydantic checks
    every field and raises one [ValidationError] when any check failed;
    [feels_like] has neither validator nor constraint. *)
Definition WeatherMain_init (temp temp_min temp_max : Q) (humidity : Z)
    (feels_like : Q) : result WeatherMain :=
  match validate_temperature temp, validate_temperature temp_min,
        validate_temperature temp_max, validate_humidity humidity with
  | Ok t, Ok tmin, Ok tmax, Ok h =>
      Ok (mkWeatherMain t tmin tmax h feels_like)
  | _, _, _, _ => Err (ValidationError "WeatherMain")
  end.

Record WeatherDescription : Type := mkWeatherDescription {
  wd_main : string;
  description : string;
  icon : string
}.

Record WeatherData : Type := mkWeatherData {
  city_name : string;
  country : option string;
  main : WeatherMain;
  weather : list WeatherDescription;
  timestamp : Time
}.

(** ** Response bodies *)

(** What [response.json()] returns. An object is the list of its items;
    [dict_get] takes the first item of a key. *)
#[warnings="-register-all"]
Inductive Json : Type :=
  | JNull
  | JBool (b : bool)
  | JInt (z : Z)
  | JFloat (q : Q)
  | JStr (s : string)
  | JList (l : list Json)
  | JDict (d : list (string * Json)).

Fixpoint dict_get (d : list (string * Json)) (k : string) : option Json :=
  match d with
  | [] => None
  | (k', v) :: d' => if String.eqb k' k then Some v else dict_get d' k
  end.

(** [v[k]] with a string key: [KeyError] on a dict without the key,
    [TypeError] on anything that is not a dict. *)
Definition subscript (v : Json) (k : string) : result Json :=
  match v with
  | JDict d =>
      match dict_get d k with
      | Some x => Ok x
      | None => Err (KeyError k)
      end
  | _ => Err TypeError
  end.

(** [v.get(k, default)]: only a dict has the method. *)
Definition py_get (v : Json) (k : string) (default : Json) : result Json :=
  match v with
  | JDict d =>
      match dict_get d k with
      | Some x => Ok x
      | None => Ok default
      end
  | _ => Err AttributeError
  end.

(** [for w in v]: a list gives its elements, a dict its keys, a string its
    characters; nothing else is iterable. *)
Definition py_iter (v : Json) : result (list Json) :=
  match v with
  | JList l => Ok l
  | JDict d => Ok (map (fun kv => JStr (fst kv)) d)
  | JStr s => Ok (map (fun c => JStr (String c EmptyString))
                      (list_ascii_of_string s))
  | _ => Err TypeError
  end.

(** Truth value of a list: empty is false. *)
Definition list_truthy {A : Type} (l : list A) : bool :=
  match l with [] => false | _ :: _ => true end.

(** [l[i]] on a sequence. *)
Definition py_index {A : Type} (l : list A) (i : nat) : result A :=
  match nth_error l i with
  | Some x => Ok x
  | None => Err IndexError
  end.

(** ** settings.py and the HTTP exchange *)

Record WeatherConfig : Type := mkWeatherConfig {
  api_key : option string;
  base_url : string;
  timeout : Z
}.

(** The GET request of [_fetch_from_api]: URL, query parameters, timeout. *)
Record Request : Type := mkRequest {
  req_url : string;
  q : string;
  appid : option string;
  units : string;
  lang : string;
  req_timeout : Z
}.

(** A response as the client reads it; [json_body] is [None] when the body
    is not JSON, so that [response.json()] raises. *)
Record Response : Type := mkResponse {
  status_code : Z;
  reason : string;
  resp_url : string;
  json_body : option Json
}.

(** What [requests.get] does: it returns a response or raises. *)
Inductive HttpOutcome : Type :=
  | Responded (r : Response)
  | Raised (e : exn).

(** [Response.raise_for_status] of requests: an [HTTPError] for the
    statuses 400..599, with the library's message. *)
Definition http_error_msg (r : Response) : string :=
  if (400 <=? status_code r) && (status_code r <? 500)
  then pretty (status_code r) ++ " Client Error: " ++ reason r
       ++ " for url: " ++ resp_url r
  else if (500 <=? status_code r) && (status_code r <? 600)
  then pretty (status_code r) ++ " Server Error: " ++ reason r
       ++ " for url: " ++ resp_url r
  else "".

Definition raise_for_status (r : Response) : result unit :=
  if PyStr.truthy (http_error_msg r)
  then Err (HTTPError (http_error_msg r))
  else Ok tt.

Definition response_json (r : Response) : result Json :=
  match json_body r with
  | Some j => Ok j
  | None => Err JSONDecodeError
  end.

(** ** client.py *)

Record CacheEntry : Type := mkCacheEntry {
  entry_data : WeatherData;
  entry_timestamp : option Time
}.

Record WeatherTool : Type := mkWeatherTool {
  config : WeatherConfig;
  _cache : gmap string CacheEntry
}.

(** [self._cache_duration = timedelta(minutes=10)], never reassigned. *)
Definition _cache_duration : Z := minutes 10.

(** [WeatherTool.__init__] with a configuration given. *)
Definition WeatherTool_init (cfg : WeatherConfig) : WeatherTool :=
  mkWeatherTool cfg ∅.

(** [_is_cache_valid]; [now] is the reading of [datetime.now()]. A
    [datetime] is always true, so only a missing timestamp is refused by
    the first test. *)
Definition _is_cache_valid (now : Time) (cache_entry : CacheEntry) : bool :=
  match entry_timestamp cache_entry with
  | None => false
  | Some cached_time =>
      let age := now - cached_time in
      age <? _cache_duration
  end.

Section Client.

(** Python's [str.strip] and [str.lower]. *)
Variable str_strip : string -> string.
Variable str_lower : string -> string.

(** Text of the exceptions that libraries raise ([str(e)]). *)
Variable lib_msg : exn -> string.

(** pydantic's conversion of an input value to a field type. *)
Variable coerce_float : Json -> option Q.
Variable coerce_int : Json -> option Z.
Variable coerce_str : Json -> option string.

(** [str(e)]. A [KeyError] prints the [repr] of its key, which for the
    field names used here is the name in single quotes. *)
Definition str_exn (e : exn) : string :=
  match e with
  | WeatherAPIError m | CityNotFoundError m | InvalidAPIKeyError m
  | NetworkError m | HTTPError m | RequestException m => m
  | KeyError k => "'" ++ k ++ "'"
  | _ => lib_msg e
  end.

(** The pydantic constructors on raw values: conversion, then the
    checks of the model. *)
Definition WeatherMain_new (temp temp_min temp_max humidity feels_like : Json)
  : result WeatherMain :=
  match coerce_float temp, coerce_float temp_min, coerce_float temp_max,
        coerce_int humidity, coerce_float feels_like with
  | Some t, Some tmin, Some tmax, Some h, Some fl =>
      WeatherMain_init t tmin tmax h fl
  | _, _, _, _, _ => Err (ValidationError "WeatherMain")
  end.

Definition WeatherDescription_new (main description icon : Json)
  : result WeatherDescription :=
  match coerce_str main, coerce_str description, coerce_str icon with
  | Some m, Some d, Some i => Ok (mkWeatherDescription m d i)
  | _, _, _ => Err (ValidationError "WeatherDescription")
  end.

(** [timestamp] is not passed by the parser: its default factory reads
    the clock, [now]. *)
Definition WeatherData_new (now : Time) (city_name country : Json)
    (main : WeatherMain) (weather : list WeatherDescription)
  : result WeatherData :=
  match coerce_str city_name with
  | None => Err (ValidationError "WeatherData")
  | Some name =>
      match country with
      | JNull => Ok (mkWeatherData name None main weather now)
      | c =>
          match coerce_str c with
          | Some s => Ok (mkWeatherData name (Some s) main weather now)
          | None => Err (ValidationError "WeatherData")
          end
      end
  end.

Definition parse_description (w : Json) : result WeatherDescription :=
  let* m := subscript w "main" in
  let* d := subscript w "description" in
  let* i := subscript w "icon" in
  WeatherDescription_new m d i.

(** The [try] block of [_parse_response], in evaluation order. The first
    line is the argument of the logger call, which is evaluated. *)
Definition parse_body (now : Time) (data : Json) : result WeatherData :=
  let* _ := py_get data "name" (JStr "unknown") in
  let* m := subscript data "main" in
  let* t := subscript m "temp" in
  let* m := subscript data "main" in
  let* tmin := subscript m "temp_min" in
  let* m := subscript data "main" in
  let* tmax := subscript m "temp_max" in
  let* m := subscript data "main" in
  let* h := subscript m "humidity" in
  let* m := subscript data "main" in
  let* fl := subscript m "feels_like" in
  let* main := WeatherMain_new t tmin tmax h fl in
  let* ws := py_get data "weather" (JList []) in
  let* items := py_iter ws in
  let* weather_list := mapM parse_description items in
  let* name := subscript data "name" in
  let* sys := py_get data "sys" (JDict []) in
  let* country := py_get sys "country" JNull in
  WeatherData_new now name country main weather_list.

(** The first two values that the [try] block builds, as it evaluates
    them: [main] from the five numbers of the ["main"] block, and
    [weather_list] from the listed conditions. *)
Definition read_main (data : Json) : result WeatherMain :=
  let* m := subscript data "main" in
  let* t := subscript m "temp" in
  let* m := subscript data "main" in
  let* tmin := subscript m "temp_min" in
  let* m := subscript data "main" in
  let* tmax := subscript m "temp_max" in
  let* m := subscript data "main" in
  let* h := subscript m "humidity" in
  let* m := subscript data "main" in
  let* fl := subscript m "feels_like" in
  WeatherMain_new t tmin tmax h fl.

Definition read_weather (data : Json) : result (list WeatherDescription) :=
  let* ws := py_get data "weather" (JList []) in
  let* items := py_iter ws in
  mapM parse_description items.

Definition incomplete_msg (e : exn) : string :=
  "Dados incompletos da API: campo " ++ str_exn e ++ " não encontrado".

Definition _parse_response (now : Time) (data : Json) : result WeatherData :=
  match parse_body now data with
  | Ok weather_data => Ok weather_data
  | Err e =>
      if is_KeyError e
      then Err (WeatherAPIError (incomplete_msg e))
      else Err (WeatherAPIError ("Erro ao processar dados: " ++ str_exn e))
  end.

(** The [except] clauses of [_fetch_from_api], in order. [response] is
    the local variable, unbound when [requests.get] raised. *)
Definition fetch_except (city : string) (response : option Response)
    (e : exn) : exn :=
  if is_HTTPError e then
    match response with
    | None => UnboundLocalError
    | Some r =>
        if status_code r =? 404
        then CityNotFoundError ("Cidade '" ++ city ++ "' não encontrada")
        else if status_code r =? 401
        then InvalidAPIKeyError "API key inválida"
        else WeatherAPIError ("Erro na API: " ++ str_exn e)
    end
  else if is_Timeout e then
    NetworkError ("Timeout ao buscar " ++ city)
  else if is_RequestException e then
    NetworkError ("Erro de conexão: " ++ str_exn e)
  else
    WeatherAPIError ("Erro inesperado: " ++ str_exn e).

Definition fetch_request (cfg : WeatherConfig) (city : string) : Request :=
  {| req_url := base_url cfg;
     q := str_strip city;
     appid := api_key cfg;
     units := "metric";
     lang := "pt_br";
     req_timeout := timeout cfg |}.

(** [_fetch_from_api]: the result and the requests sent, always one. *)
Definition _fetch_from_api (cfg : WeatherConfig)
    (net : Request -> HttpOutcome) (now : Time) (city : string)
  : result WeatherData * list Request :=
  let req := fetch_request cfg city in
  match net req with
  | Raised e => (Err (fetch_except city None e), [req])
  | Responded response =>
      let body :=
        let* _ := raise_for_status response in
        let* data := response_json response in
        _parse_response now data in
      match body with
      | Ok weather_data => (Ok weather_data, [req])
      | Err e => (Err (fetch_except city (Some response) e), [req])
      end
  end.

(** [city.lower().strip()], the key of a city in the cache. *)
Definition cache_key (city : string) : string :=
  str_strip (str_lower city).

(** The readings of [datetime.now()] during one [get_weather]: in
    [_is_cache_valid], in the default factory of [WeatherData.timestamp]
    and when the entry is stored. *)
Record Clock : Type := mkClock {
  at_check : Time;
  at_parse : Time;
  at_store : Time
}.

(** What the cache test of [get_weather] leaves to do: return the cached
    record, or go on with the cache it hands over (the stale entry
    deleted). *)
Definition check_cache (now : Time) (city_key : string)
    (cache : gmap string CacheEntry)
  : WeatherData + gmap string CacheEntry :=
  match cache !! city_key with
  | Some cache_entry =>
      if _is_cache_valid now cache_entry
      then inl (entry_data cache_entry)
      else inr (delete city_key cache)
  | None => inr cache
  end.

(** [get_weather]: the result, the tool afterwards and the requests
    sent to the remote service. *)
Definition get_weather (net : Request -> HttpOutcome) (clk : Clock)
    (city : string) (self : WeatherTool)
  : result WeatherData * WeatherTool * list Request :=
  if negb (PyStr.truthy city) || negb (PyStr.truthy (str_strip city))
  then (Err (WeatherAPIError "Nome da cidade não pode estar vazio"),
        self, [])
  else
    let city_key := cache_key city in
    match check_cache (at_check clk) city_key (_cache self) with
    | inl data => (Ok data, self, [])
    | inr cache =>
        match _fetch_from_api (config self) net (at_parse clk) city with
        | (Ok weather_data, sent) =>
            (Ok weather_data,
             mkWeatherTool (config self)
               (<[city_key :=
                    mkCacheEntry weather_data (Some (at_store clk))]> cache),
             sent)
        | (Err e, sent) =>
            (Err e, mkWeatherTool (config self) cache, sent)
        end
    end.

End Client.

(** [get_cache_info]. Every entry is tested with a reading of its own:
    [now_at i] is the reading for the [i]-th entry visited. The cities are
    listed in the order of the map, not in the order of insertion. *)
Record CacheInfo : Type := mkCacheInfo {
  total_cities : nat;
  valid_entries : nat;
  expired_entries : Z;
  cache_duration_minutes : Q;
  cached_cities : list string
}.

Fixpoint count_valid (now_at : nat -> Time) (i : nat)
    (entries : list CacheEntry) : nat :=
  match entries with
  | [] => O
  | e :: es =>
      ((if _is_cache_valid (now_at i) e then 1 else 0)
       + count_valid now_at (S i) es)%nat
  end.

Definition get_cache_info (now_at : nat -> Time) (self : WeatherTool)
  : CacheInfo :=
  let items := map_to_list (_cache self) in
  let valid := count_valid now_at O (map snd items) in
  {| total_cities := size (_cache self);
     valid_entries := valid;
     expired_entries := Z.of_nat (size (_cache self)) - Z.of_nat valid;
     cache_duration_minutes := Qmake (_cache_duration / 1000000) 60;
     cached_cities := map fst items |}.

(** What a Python call hands back, where the kind of value matters. *)
Inductive PyValue : Type :=
  | PyNone
  | PyInt (n : Z).

(** [clear_cache(self) -> None]: the value returned, the tool afterwards
    and the line logged, the only use of [count]. *)
Definition clear_cache (self : WeatherTool)
  : PyValue * WeatherTool * string :=
  let count := size (_cache self) in
  (PyNone,
   mkWeatherTool (config self) ∅,
   "Cache limpo: " ++ pretty count ++ " entradas removidas").

(** ** The adapters of [WeatherData] *)

Record Location : Type := mkLocation {
  loc_city : string;
  loc_country : option string
}.

Record Temperature : Type := mkTemperature {
  current : Q;
  t_min : Q;
  t_max : Q;
  t_feels_like : Q
}.

Record AgentFormat : Type := mkAgentFormat {
  location : Location;
  temperature : Temperature;
  conditions : string;
  af_humidity : Z;
  af_timestamp : string
}.

Definition nl : string := String (ascii_of_nat 10) EmptyString.

Section Adapters.

(** [datetime.isoformat] and the text of a float in an f-string. *)
Variable isoformat : Time -> string.
Variable str_float : Q -> string.

(** [self.weather[0].description if self.weather else default]. *)
Definition first_description (self : WeatherData) (default : string)
  : result string :=
  if list_truthy (weather self)
  then let* w := py_index (weather self) 0 in Ok (description w)
  else Ok default.

Definition to_agent_format (self : WeatherData) : result AgentFormat :=
  let* cond := first_description self "unknown" in
  Ok {| location := mkLocation (city_name self) (country self);
        temperature :=
          mkTemperature (temp (main self)) (temp_min (main self))
            (temp_max (main self)) (feels_like (main self));
        conditions := cond;
        af_humidity := humidity (main self);
        af_timestamp := isoformat (timestamp self) |}.

Definition to_display_format (self : WeatherData) : result string :=
  let* cond := first_description self "N/A" in
  Ok (nl ++ "🌡️ Clima em " ++ city_name self ++ nl
      ++ "Temperatura: " ++ str_float (temp (main self))
      ++ "°C (sensação: " ++ str_float (feels_like (main self))
      ++ "°C)" ++ nl
      ++ "Condições: " ++ cond ++ nl
      ++ "Umidade: " ++ pretty (humidity (main self)) ++ "%" ++ nl).

End Adapters.

(** The text of the first description, or the default. *)
Definition conditions_of (self : WeatherData) (default : string) : string :=
  match weather self with
  | [] => default
  | w :: _ => description w
  end.

(** ** Fields the parser reads by subscript *)

Definition main_fields : list string :=
  ["temp"; "temp_min"; "temp_max"; "humidity"; "feels_like"].

Definition description_fields : list string :=
  ["main"; "description"; "icon"].

Definition has_key (d : list (string * Json)) (k : string) : bool :=
  match dict_get d k with Some _ => true | None => false end.

Definition absent (d : list (string * Json)) (keys : list string)
  : list string :=
  List.filter (fun k => negb (has_key d k)) keys.

Definition absent_in_item (w : Json) : list string :=
  match w with
  | JDict o => absent o description_fields
  | _ => []
  end.

(** The subscripted fields that a body lacks, each looked for where the
    parser reads it: ["main"] and ["name"] in the body, the five numbers
    in the ["main"] block, the three texts in every listed condition. *)
Definition missing_fields (data : Json) : list string :=
  match data with
  | JDict d =>
      absent d ["main"]
      ++ match dict_get d "main" with
         | Some (JDict m) => absent m main_fields
         | _ => []
         end
      ++ match dict_get d "weather" with
         | Some (JList l) => flat_map absent_in_item l
         | _ => []
         end
      ++ absent d ["name"]
  | _ => []
  end.

(** A record with another creation time. *)
Definition with_timestamp (t : Time) (r : WeatherData) : WeatherData :=
  mkWeatherData (city_name r) (country r) (main r) (weather r) t.

Definition result_map {A B : Type} (f : A -> B) (r : result A) : result B :=
  match r with
  | Ok a => Ok (f a)
  | Err e => Err e
  end.

(** The range that [validate_temperature] accepts. *)
Definition temperature_ok (v : Q) : bool :=
  Qle_bool (-50 # 1) v && Qle_bool v (60 # 1).

Definition humidity_ok (h : Z) : bool := (0 <=? h) && (h <=? 100).

(** The statuses for which [raise_for_status] raises. *)
Definition error_status (status : Z) : Prop := 400 <= status < 600.

(** ** Sample data for the examples *)

Module Sample.

Definition msg (e : exn) : string := "library error".

(** Conversions that take a value of the field's own type only. *)
Definition as_float (j : Json) : option Q :=
  match j with
  | JInt z => Some (inject_Z z)
  | JFloat q => Some q
  | _ => None
  end.

Definition as_int (j : Json) : option Z :=
  match j with JInt z => Some z | _ => None end.

Definition as_str (j : Json) : option string :=
  match j with JStr s => Some s | _ => None end.

Definition url : string := "https://api.openweathermap.org/data/2.5/weather".

Definition cfg : WeatherConfig :=
  mkWeatherConfig (Some "0123456789abcdef0123456789abcdef") url 10.

Definition main_block : Json :=
  JDict [("temp", JFloat (1556 # 100)); ("temp_min", JInt 12);
         ("temp_max", JFloat (181 # 10)); ("humidity", JInt 72);
         ("feels_like", JFloat (1493 # 100))].

Definition clouds : Json :=
  JDict [("main", JStr "Clouds"); ("description", JStr "nublado");
         ("icon", JStr "04d")].

Definition london : Json :=
  JDict [("name", JStr "London"); ("sys", JDict [("country", JStr "GB")]);
         ("main", main_block); ("weather", JList [clouds])].

(** The same body without the list of conditions. *)
Definition london_no_weather : Json :=
  JDict [("name", JStr "London"); ("sys", JDict [("country", JStr "GB")]);
         ("main", main_block)].

Definition london_main : WeatherMain :=
  mkWeatherMain (156 # 10) (120 # 10) (181 # 10) 72 (1493 # 100).

Definition london_record (t : Time) : WeatherData :=
  mkWeatherData "London" (Some "GB") london_main
    [mkWeatherDescription "Clouds" "nublado" "04d"] t.

Definition serves (body : Json) : Request -> HttpOutcome :=
  fun _ => Responded (mkResponse 200 "OK" url (Some body)).

Definition answers (status : Z) (reason : string) : Request -> HttpOutcome :=
  fun _ => Responded (mkResponse status reason url None).

Definition unreachable : Request -> HttpOutcome :=
  fun _ => Raised Timeout.

Definition tool0 : WeatherTool := WeatherTool_init cfg.

(** The tool after London was parsed at [t_parse] and stored at
    [t_store]. *)
Definition tool_with_london (t_parse t_store : Time) : WeatherTool :=
  mkWeatherTool cfg
    (<["london" := mkCacheEntry (london_record t_parse) (Some t_store)]> ∅).

Definition london_request : Request :=
  mkRequest url "London" (api_key cfg) "metric" "pt_br" 10.

End Sample.

(** ** A well-formed cache *)

(** [city] passes the guard of [get_weather]: neither [not city] nor
    [not city.strip()]. *)
Definition accepted (str_strip : string -> string) (city : string) : Prop :=
  city <> "" /\ str_strip city <> "".

(** What every cache built by the tool satisfies: a key is the normal
    form of a city that the guard accepts, and an entry has its
    timestamp. *)
Definition cache_wf (str_strip str_lower : string -> string)
    (cache : gmap string CacheEntry) : Prop :=
  forall k e, cache !! k = Some e ->
    (exists city, accepted str_strip city
                  /\ k = cache_key str_strip str_lower city)
    /\ is_Some (entry_timestamp e).

(** The cache that a lookup of [key] leaves when it went to the service
    and got [res]. *)
Definition cache_after_fetch (key : string) (now : Time)
    (res : result WeatherData) (cache : gmap string CacheEntry)
  : gmap string CacheEntry :=
  match res with
  | Ok r => <[key := mkCacheEntry r (Some now)]> (delete key cache)
  | Err _ => delete key cache
  end.

(** ** The convenience methods of the tool (client.py) *)

Section ToolMethods.

Variable str_strip : string -> string.
Variable str_lower : string -> string.
Variable lib_msg : exn -> string.
Variable coerce_float : Json -> option Q.
Variable coerce_int : Json -> option Z.
Variable coerce_str : Json -> option string.
Variable isoformat : Time -> string.
Variable str_float : Q -> string.

(** [get_weather_for_agent]: [get_weather], then [to_agent_format]. *)
Definition get_weather_for_agent (net : Request -> HttpOutcome)
    (clk : Clock) (city : string) (self : WeatherTool)
  : result AgentFormat * WeatherTool * list Request :=
  let '(res, self', sent) :=
    get_weather str_strip str_lower lib_msg coerce_float coerce_int coerce_str
      net clk city self in
  (let* weather := res in to_agent_format isoformat weather, self', sent).


End ToolMethods.

(** ** settings.py *)

Module Settings.

(** What loading the settings can raise: pydantic's [ValidationError] of
    the configuration, or the [ValueError] of [get_settings]. *)
Inductive settings_error : Type :=
  | ConfigValidationError
  | ValueError (msg : string).

Definition default_base_url : string :=
  "https://api.openweathermap.org/data/2.5/weather".

Definition default_timeout : Z := 10.

(** [WeatherConfig(...)] on the values that the sources of the settings
    (arguments, environment, .env file) supply for the three fields,
    [None] where they supply nothing: the defaults are filled in and
    [timeout] must lie in 1..30. *)
Definition WeatherConfig_new (api_key base_url : option string)
    (timeout : option Z) : settings_error + WeatherConfig :=
  let t := match timeout with Some t => t | None => default_timeout end in
  let url := match base_url with Some u => u | None => default_base_url end in
  if (1 <=? t) && (t <=? 30)
  then inr (mkWeatherConfig api_key url t)
  else inl ConfigValidationError.

(** [not config.api_key or not config.api_key.strip()]; [str_strip] is
    Python's [str.strip]. *)
Definition api_key_missing (str_strip : string -> string)
    (config : WeatherConfig) : bool :=
  match api_key config with
  | None => true
  | Some k => negb (PyStr.truthy k) || negb (PyStr.truthy (str_strip k))
  end.

(** [get_settings], on the values the sources supply. *)
Definition get_settings (str_strip : string -> string)
    (api_key base_url : option string) (timeout : option Z)
  : settings_error + WeatherConfig :=
  match WeatherConfig_new api_key base_url timeout with
  | inl e => inl e
  | inr config =>
      if api_key_missing str_strip config
      then inl (ValueError
                  "API key não configurada. Adicione OPENWEATHER_API_KEY no .env")
      else inr config
  end.

(** [WeatherTool(config)]: [config or get_settings()]; a configuration
    object is always true. *)
Definition WeatherTool_new (str_strip : string -> string)
    (config : option WeatherConfig)
    (api_key base_url : option string) (timeout : option Z)
  : settings_error + WeatherTool :=
  match config with
  | Some c => inr (WeatherTool_init c)
  | None =>
      match get_settings str_strip api_key base_url timeout with
      | inl e => inl e
      | inr c => inr (WeatherTool_init c)
      end
  end.

End Settings.

(** ** The interface for agents (examples/weather_tool_p_agentes_ia.py) *)

(** ["x" in s] on strings. *)
Fixpoint contains (needle hay : string) : bool :=
  String.prefix needle hay
  || match hay with
     | EmptyString => false
     | String _ hay' => contains needle hay'
     end.

(** Truth value of a Python value. *)
Definition py_truthy (v : Json) : bool :=
  match v with
  | JNull => false
  | JBool b => b
  | JInt z => negb (z =? 0)
  | JFloat q => negb (Qeq_bool q 0)
  | JStr s => PyStr.truthy s
  | JList l => list_truthy l
  | JDict d => list_truthy d
  end.

(** [v.lower()]: only a string has the method; [str_lower] is Python's
    [str.lower]. *)
Definition py_lower (str_lower : string -> string) (v : Json)
  : result string :=
  match v with
  | JStr s => Ok (str_lower s)
  | _ => Err AttributeError
  end.

Definition is_CityNotFoundError (e : exn) : bool :=
  match e with CityNotFoundError _ => true | _ => false end.

(** The dict that [to_agent_format] returns. *)
Definition agent_dict (a : AgentFormat) : Json :=
  JDict
    [("location",
      JDict [("city", JStr (loc_city (location a)));
             ("country",
              match loc_country (location a) with
              | Some c => JStr c
              | None => JNull
              end)]);
     ("temperature",
      JDict [("current", JFloat (current (temperature a)));
             ("min", JFloat (t_min (temperature a)));
             ("max", JFloat (t_max (temperature a)));
             ("feels_like", JFloat (t_feels_like (temperature a)))]);
     ("conditions", JStr (conditions a));
     ("humidity", JInt (af_humidity a));
     ("timestamp", JStr (af_timestamp a))].

Module Agents.

(** What leaves a function of the module as an exception. *)
Inductive raised : Type :=
  | SettingsRaised (e : Settings.settings_error)
  | ExnRaised (e : exn).

Section Interface.

Variable str_strip : string -> string.
Variable str_lower : string -> string.
Variable lib_msg : exn -> string.
Variable coerce_float : Json -> option Q.
Variable coerce_int : Json -> option Z.
Variable coerce_str : Json -> option string.
Variable isoformat : Time -> string.

(** Python's [str] of a value in an f-string, and its comparisons. *)
Variable py_str : Json -> string.
Variable py_gt : Json -> Json -> result bool.
Variable py_lt : Json -> Json -> result bool.
Variable py_ge : Json -> Json -> result bool.

(** What the sources of the settings supply, should the tool be built. *)
Variable env_api_key : option string.
Variable env_base_url : option string.
Variable env_timeout : option Z.

(** [_get_tool]: the tool held in the global [_weather_tool], built on
    the first call. *)
Definition _get_tool (_weather_tool : option WeatherTool)
  : Settings.settings_error + WeatherTool :=
  match _weather_tool with
  | Some tool => inr tool
  | None =>
      Settings.WeatherTool_new str_strip None env_api_key env_base_url
        env_timeout
  end.

(** The [try] block of [get_weather] after the call of the tool. *)
Definition success_dict (data : Json) : result Json :=
  let* t := subscript data "temperature" in
  let* temp := subscript t "current" in
  let* t := subscript data "temperature" in
  let* feels := subscript t "feels_like" in
  let* conditions := subscript data "conditions" in
  let* humidity := subscript data "humidity" in
  let* cw := subscript data "current_weather" in
  let* w := subscript cw "wind" in
  let* wind := subscript w "speed" in
  let* l := subscript data "location" in
  let* city1 := subscript l "city" in
  let* l := subscript data "location" in
  let* country1 := subscript l "country" in
  let message :=
    "Em " ++ py_str city1 ++ ", " ++ py_str country1 ++ ": "
    ++ py_str temp ++ "°C (sensação de " ++ py_str feels ++ "°C), "
    ++ py_str conditions ++ ", "
    ++ "umidade " ++ py_str humidity ++ "%, vento " ++ py_str wind ++ " m/s" in
  let* l := subscript data "location" in
  let* city2 := subscript l "city" in
  let* l := subscript data "location" in
  let* country2 := subscript l "country" in
  Ok (JDict [("success", JBool true); ("city", city2);
             ("country", country2); ("temperature", temp);
             ("feels_like", feels); ("conditions", conditions);
             ("humidity", humidity); ("wind_speed", wind);
             ("message", JStr message)]).

(** The [except] clauses of [get_weather], in order. *)
Definition failure_dict (city : string) (e : exn) : Json :=
  if is_CityNotFoundError e then
    JDict [("success", JBool false); ("error", JStr "city_not_found");
           ("message", JStr ("Cidade '" ++ city ++ "' não encontrada"))]
  else if is_WeatherAPIError e then
    JDict [("success", JBool false); ("error", JStr "api_error");
           ("message", JStr (str_exn lib_msg e))]
  else
    JDict [("success", JBool false); ("error", JStr "unknown");
           ("message", JStr ("Erro inesperado: " ++ str_exn lib_msg e))].

(** [get_weather(city)]: the dict returned, the global afterwards and
    the requests sent; or what [_get_tool] raised. *)
Definition get_weather (net : Request -> HttpOutcome) (clk : Clock)
    (city : string) (_weather_tool : option WeatherTool)
  : raised + (Json * option WeatherTool * list Request) :=
  match _get_tool _weather_tool with
  | inl e => inl (SettingsRaised e)
  | inr tool =>
      let '(res, tool', sent) :=
        get_weather_for_agent str_strip str_lower lib_msg coerce_float
          coerce_int coerce_str isoformat net clk city tool in
      let body := let* a := res in success_dict (agent_dict a) in
      inr (match body with
           | Ok d => d
           | Err e => failure_dict city e
           end,
           Some tool', sent)
  end.

(** The part of [is_beach_weather] after the test of ["success"]. *)
Definition beach_analysis (res : Json) (min_temp : Json) : result Json :=
  let* temp := subscript res "temperature" in
  let* c := subscript res "conditions" in
  let* conditions := py_lower str_lower c in
  let* good_temp := py_ge temp min_temp in
  let no_rain :=
    negb (contains "chuva" conditions) && negb (contains "rain" conditions) in
  let good_for_beach := good_temp && no_rain in
  let* recommendation :=
    if good_for_beach then
      let* c := subscript res "conditions" in
      Ok ("Perfeito para praia! " ++ py_str temp ++ "°C e " ++ py_str c)
    else if negb good_temp then
      Ok ("Muito frio para praia (" ++ py_str temp ++ "°C)")
    else if negb no_rain then
      let* c := subscript res "conditions" in
      Ok ("Não recomendado: " ++ py_str c)
    else Ok "Condições não ideais para praia" in
  let* city := subscript res "city" in
  let* c := subscript res "conditions" in
  Ok (JDict [("success", JBool true); ("city", city);
             ("good_for_beach", JBool good_for_beach);
             ("temperature", temp); ("conditions", c);
             ("recommendation", JStr recommendation)]).

(** [is_beach_weather(city, min_temp)]. *)
Definition is_beach_weather (net : Request -> HttpOutcome) (clk : Clock)
    (city : string) (min_temp : Json) (_weather_tool : option WeatherTool)
  : raised + (Json * option WeatherTool * list Request) :=
  match get_weather net clk city _weather_tool with
  | inl e => inl e
  | inr (res, g, sent) =>
      match subscript res "success" with
      | Err e => inl (ExnRaised e)
      | Ok s =>
          if negb (py_truthy s) then inr (res, g, sent)
          else
            match beach_analysis res min_temp with
            | Ok d => inr (d, g, sent)
            | Err e => inl (ExnRaised e)
            end
      end
  end.

(** The first loop of [compare_weather]: [world i] is the service and the
    clock at the [i]-th call of [get_weather]. *)
Fixpoint gather (world : nat -> (Request -> HttpOutcome) * Clock) (i : nat)
    (cities : list string) (results : list Json) (errors : list string)
    (_weather_tool : option WeatherTool) (sent : list Request)
  : raised + (list Json * list string * option WeatherTool * list Request) :=
  match cities with
  | [] => inr (results, errors, _weather_tool, sent)
  | city :: rest =>
      match get_weather (fst (world i)) (snd (world i)) city _weather_tool with
      | inl e => inl e
      | inr (data, g, sent') =>
          match subscript data "success" with
          | Err e => inl (ExnRaised e)
          | Ok s =>
              if py_truthy s
              then gather world (S i) rest (results ++ [data]) errors g
                     (sent ++ sent')
              else gather world (S i) rest results (errors ++ [city]) g
                     (sent ++ sent')
          end
      end
  end.

(** [max(results, key=...)] and [min(results, key=...)] on a list that is
    not empty: the first element whose key no later one beats. *)
Fixpoint best_by (better : Json -> Json -> result bool)
    (key : Json -> result Json) (best best_key : Json) (l : list Json)
  : result Json :=
  match l with
  | [] => Ok best
  | x :: l' =>
      let* k := key x in
      let* b := better k best_key in
      if b then best_by better key x k l' else best_by better key best best_key l'
  end.

Definition extreme (better : Json -> Json -> result bool)
    (first : Json) (others : list Json) : result Json :=
  let* k := subscript first "temperature" in
  best_by better (fun y => subscript y "temperature") first k others.

Definition summary_line (r : Json) : result string :=
  let* city := subscript r "city" in
  let* t := subscript r "temperature" in
  let* c := subscript r "conditions" in
  Ok ("- " ++ py_str city ++ ": " ++ py_str t ++ "°C, " ++ py_str c).

Fixpoint join (sep : string) (l : list string) : string :=
  match l with
  | [] => ""
  | [x] => x
  | x :: l' => x ++ sep ++ join sep l'
  end.

(** The part of [compare_weather] after the test of [results], which
    are then [first :: others]. *)
Definition comparison (first : Json) (others : list Json)
    (errors : list string) : result Json :=
  let results := first :: others in
  let* hottest := extreme py_gt first others in
  let* coldest := extreme py_lt first others in
  let* summary_lines := mapM summary_line results in
  let summary := join nl summary_lines in
  let* hc := subscript hottest "city" in
  let* ht := subscript hottest "temperature" in
  let summary :=
    summary ++ nl ++ nl ++ "Mais quente: " ++ py_str hc
    ++ " (" ++ py_str ht ++ "°C)" in
  let* cc := subscript coldest "city" in
  let* ct := subscript coldest "temperature" in
  let summary :=
    summary ++ nl ++ "Mais fria: " ++ py_str cc
    ++ " (" ++ py_str ct ++ "°C)" in
  let* hc' := subscript hottest "city" in
  let* ht' := subscript hottest "temperature" in
  let* cc' := subscript coldest "city" in
  let* ct' := subscript coldest "temperature" in
  Ok (JDict [("success", JBool true); ("cities", JList results);
             ("hottest", JDict [("city", hc'); ("temperature", ht')]);
             ("coldest", JDict [("city", cc'); ("temperature", ct')]);
             ("errors",
              if list_truthy errors then JList (map JStr errors) else JNull);
             ("summary", JStr summary)]).

Definition no_data : Json :=
  JDict [("success", JBool false); ("error", JStr "no_data");
         ("message",
          JStr "Não foi possível obter dados de nenhuma cidade")].

(** [compare_weather(cities)]. *)
Definition compare_weather (world : nat -> (Request -> HttpOutcome) * Clock)
    (cities : list string) (_weather_tool : option WeatherTool)
  : raised + (Json * option WeatherTool * list Request) :=
  match gather world O cities [] [] _weather_tool [] with
  | inl e => inl e
  | inr (results, errors, g, sent) =>
      match results with
      | [] => inr (no_data, g, sent)
      | first :: others =>
          match comparison first others errors with
          | Ok d => inr (d, g, sent)
          | Err e => inl (ExnRaised e)
          end
      end
  end.

End Interface.

End Agents.

(** * Properties *)

(** ** The ASCII instance of [str.strip] and [str.lower] *)

Module PyStrFacts.
Import PyStr.

Lemma isspace_lower_char (c : ascii) : isspace (lower_char c) = isspace c.
Proof. by destruct c as [[] [] [] [] [] [] [] []]. Qed.

Lemma blank_lower (s : string) : blank (lower s) = blank s.
Proof.
  induction s as [|c s IH]; simpl; [done|].
  by rewrite isspace_lower_char, IH.
Qed.

Lemma lstrip_blank (s : string) : blank s = true -> lstrip s = "".
Proof.
  induction s as [|c s IH]; simpl; [done|].
  destruct (isspace c); simpl; [exact IH | discriminate].
Qed.

(** What [lstrip] leaves starts with a character that is not white
    space, unless the string was blank. *)
Lemma lstrip_head (s : string) :
  blank s = false ->
  exists c r, lstrip s = String c r /\ isspace c = false.
Proof.
  induction s as [|c s IH]; simpl; [discriminate|].
  destruct (isspace c) eqn:Hc; simpl; [exact IH | eauto].
Qed.

Lemma rstrip_head (c : ascii) (r : string) :
  isspace c = false -> rstrip (String c r) <> "".
Proof.
  intros Hc. simpl. destruct (rstrip r); [by rewrite Hc | done].
Qed.

Lemma strip_empty_blank (s : string) : strip s = "" <-> blank s = true.
Proof.
  unfold strip. split.
  - intros Hs. destruct (blank s) eqn:Hb; [done|].
    destruct (lstrip_head s Hb) as (c & r & Hl & Hc).
    rewrite Hl in Hs. by apply rstrip_head in Hs.
  - intros Hb. by rewrite (lstrip_blank s Hb).
Qed.

(** Lower case neither makes nor unmakes a blank string. *)
Lemma key_empty_iff (city : string) :
  strip (lower city) = "" <-> strip city = "".
Proof. by rewrite !strip_empty_blank, blank_lower. Qed.

Lemma lower_keeps_blank (s : string) :
  strip (lower s) = "" -> s = "" \/ strip s = "".
Proof. intros H. right. by apply key_empty_iff. Qed.

End PyStrFacts.

Lemma truthy_false (s : string) : PyStr.truthy s = false <-> s = "".
Proof. by destruct s. Qed.

(** ** The cache store *)

Section CacheStore.

Variable str_strip : string -> string.
Variable str_lower : string -> string.
Variable lib_msg : exn -> string.
Variable coerce_float : Json -> option Q.
Variable coerce_int : Json -> option Z.
Variable coerce_str : Json -> option string.

Abbreviation fetch :=
  (_fetch_from_api str_strip lib_msg coerce_float coerce_int coerce_str).

(** A fetch sends one request, whatever comes back. *)
Lemma fetch_sends_one cfg net now city :
  snd (fetch cfg net now city) = [fetch_request str_strip cfg city].
Proof.
  unfold _fetch_from_api.
  destruct (net (fetch_request str_strip cfg city)) as [r|e]; [|done].
  cbv zeta. by destruct (bind (raise_for_status r) _).
Qed.

(** The guard [not city or not city.strip()] holds exactly of the empty
    string and of the strings that [str.strip] empties. *)
Lemma guard_iff (city : string) :
  negb (PyStr.truthy city) || negb (PyStr.truthy (str_strip city)) = true
  <-> city = "" \/ str_strip city = "".
Proof. by rewrite orb_true_iff, !negb_true_iff, !truthy_false. Qed.

Lemma guard_passes (city : string) :
  accepted str_strip city ->
  negb (PyStr.truthy city) || negb (PyStr.truthy (str_strip city)) = false.
Proof.
  intros [Hc Hs]. apply not_true_iff_false. intros Hg.
  apply (proj1 (guard_iff city)) in Hg. by destruct Hg.
Qed.

Lemma guard_false (city : string) :
  negb (PyStr.truthy city) || negb (PyStr.truthy (str_strip city)) = false ->
  accepted str_strip city.
Proof.
  intros Hg. split; intros H;
    by rewrite (proj2 (guard_iff city)) in Hg; [|auto].
Qed.

Lemma fresh_valid now T entry :
  entry_timestamp entry = Some T ->
  now - T < _cache_duration ->
  _is_cache_valid now entry = true.
Proof.
  intros HT Hage. unfold _is_cache_valid. rewrite HT.
  by apply Z.ltb_lt.
Qed.

Lemma old_stale now T entry :
  entry_timestamp entry = Some T ->
  _cache_duration <= now - T ->
  _is_cache_valid now entry = false.
Proof.
  intros HT Hage. unfold _is_cache_valid. rewrite HT.
  by apply Z.ltb_ge.
Qed.

Lemma check_cache_stale now key cache entry :
  cache !! key = Some entry ->
  _is_cache_valid now entry = false ->
  check_cache now key cache = inr (delete key cache).
Proof. intros Hk Hv. unfold check_cache. by rewrite Hk, Hv. Qed.

Lemma check_cache_fresh now key cache entry :
  cache !! key = Some entry ->
  _is_cache_valid now entry = true ->
  check_cache now key cache = inl (entry_data entry).
Proof. intros Hk Hv. unfold check_cache. by rewrite Hk, Hv. Qed.

(** C6: a city that is empty, or that [str.strip] empties, is refused
    by the local check with the tool's base error; the tool is left as
    it was and no request is sent. So is every city whose normalised
    name (lower case, stripped) is empty, by what [str.lower] is: it
    makes no string blank that was not. *)
Theorem get_weather_blank_city net clk (city : string) self :
  (city = "" \/ str_strip city = "" ->
   get_weather str_strip str_lower lib_msg coerce_float coerce_int coerce_str
       net clk city self
   = (Err (WeatherAPIError "Nome da cidade não pode estar vazio"),
      self, []))
  /\ ((forall s, str_strip (str_lower s) = "" -> s = "" \/ str_strip s = "") ->
      cache_key str_strip str_lower city = "" ->
      get_weather str_strip str_lower lib_msg coerce_float coerce_int
          coerce_str net clk city self
      = (Err (WeatherAPIError "Nome da cidade não pode estar vazio"),
         self, [])).
Proof.
  assert (Hg : city = "" \/ str_strip city = "" ->
               get_weather str_strip str_lower lib_msg coerce_float
                   coerce_int coerce_str net clk city self
               = (Err (WeatherAPIError "Nome da cidade não pode estar vazio"),
                  self, [])).
  { intros H. unfold get_weather. by rewrite (proj2 (guard_iff city) H). }
  split; [exact Hg|]. intros Hlower Hkey. apply Hg, Hlower, Hkey.
Qed.

(** C1: when a lookup of city C at time T fetched the record (one
    request sent) and stored it, a lookup of C at T + delta, with delta
    less than the ten minutes of [_cache_duration], returns that same
    record, leaves the tool as it is and sends no request. The second
    lookup may spell the city otherwise, as long as the guard accepts
    the spelling and the key is the same. *)
Theorem get_weather_fresh_hit net clk (city city' : string) self
    record self1 req (T delta : Z) net' clk' :
  get_weather str_strip str_lower lib_msg coerce_float coerce_int coerce_str
      net clk city self = (Ok record, self1, [req]) ->
  city' = city
  \/ (accepted str_strip city'
      /\ cache_key str_strip str_lower city'
         = cache_key str_strip str_lower city) ->
  T <= at_store clk ->
  delta < _cache_duration ->
  at_check clk' = T + delta ->
  get_weather str_strip str_lower lib_msg coerce_float coerce_int coerce_str
      net' clk' city' self1 = (Ok record, self1, []).
Proof.
  intros Hfirst Hcity' HT Hdelta Hnow. unfold get_weather in *.
  destruct (negb (PyStr.truthy city) || _) eqn:Hguard; [done|].
  assert (Hacc : accepted str_strip city'
                 /\ cache_key str_strip str_lower city'
                    = cache_key str_strip str_lower city).
  { destruct Hcity' as [->|H]; [|exact H].
    split; [by apply guard_false | done]. }
  destruct Hacc as [Hacc Hkey].
  rewrite (guard_passes city' Hacc), Hkey.
  destruct (check_cache (at_check clk) _ (_cache self)) as [d|cache];
    [done|].
  destruct (fetch (config self) net (at_parse clk) city)
    as [[weather_data|e] sent]; [|done].
  injection Hfirst as -> <- ->. simpl.
  rewrite (check_cache_fresh _ _ _
             (mkCacheEntry record (Some (at_store clk)))).
  - done.
  - apply lookup_insert_eq.
  - apply (fresh_valid _ (at_store clk)); [done | simpl; lia].
Qed.

(** C2: with an entry for C stored at time T, a lookup of C at
    T + delta, delta at least [_cache_duration], sends exactly one
    request, the one of the fetch, and returns what the fetch returns.
    The old entry is deleted whatever the fetch returns; when the fetch
    succeeds its record is stored under the same key with the time of
    storing, in place of the old entry, and the other entries are
    untouched. *)
Theorem get_weather_stale_refetch net clk (city : string) self
    entry (T delta : Z) :
  accepted str_strip city ->
  _cache self !! cache_key str_strip str_lower city = Some entry ->
  entry_timestamp entry = Some T ->
  _cache_duration <= delta ->
  at_check clk = T + delta ->
  let key := cache_key str_strip str_lower city in
  let res := fst (fetch (config self) net (at_parse clk) city) in
  let cache' :=
    match res with
    | Ok record =>
        <[key := mkCacheEntry record (Some (at_store clk))]> (_cache self)
    | Err _ => delete key (_cache self)
    end in
  get_weather str_strip str_lower lib_msg coerce_float coerce_int coerce_str
      net clk city self
  = (res, mkWeatherTool (config self) cache',
     [fetch_request str_strip (config self) city])
  /\ cache' !! key
     = match res with
       | Ok record => Some (mkCacheEntry record (Some (at_store clk)))
       | Err _ => None
       end
  /\ forall k, k <> key -> cache' !! k = _cache self !! k.
Proof.
  intros Hcity Hentry HT Hdelta Hnow key res cache'.
  assert (Hstale : check_cache (at_check clk) key (_cache self)
                   = inr (delete key (_cache self))).
  { eapply check_cache_stale; [done|]. eapply old_stale; [done|]. lia. }
  unfold get_weather. fold key. rewrite (guard_passes city Hcity), Hstale.
  pose proof (fetch_sends_one (config self) net (at_parse clk) city) as Hsent.
  subst cache' res.
  destruct (fetch (config self) net (at_parse clk) city)
    as [[weather_data|e] sent]; simpl in Hsent; subst sent; simpl.
  - rewrite insert_delete_eq. split; [done|].
    split; [apply lookup_insert_eq|].
    intros k Hk. by apply lookup_insert_ne.
  - split; [done|]. split; [apply lookup_delete_eq|].
    intros k Hk. by apply lookup_delete_ne.
Qed.

(** C10: when the lookup finds a stale entry under the key and the
    fetch then fails, the error is raised, nothing is stored and the
    entry stays deleted: the cache afterwards has nothing under the key,
    though it had the entry before the call. *)
Theorem get_weather_stale_then_failure net clk (city : string) self
    entry e sent :
  accepted str_strip city ->
  _cache self !! cache_key str_strip str_lower city = Some entry ->
  _is_cache_valid (at_check clk) entry = false ->
  fetch (config self) net (at_parse clk) city = (Err e, sent) ->
  exists self',
    get_weather str_strip str_lower lib_msg coerce_float coerce_int coerce_str
      net clk city self = (Err e, self', sent)
    /\ _cache self' = delete (cache_key str_strip str_lower city) (_cache self)
    /\ _cache self' !! cache_key str_strip str_lower city = None
    /\ _cache self' <> _cache self.
Proof.
  intros Hcity Hentry Hstale Hfetch.
  unfold get_weather.
  rewrite (guard_passes city Hcity).
  rewrite (check_cache_stale _ _ _ _ Hentry Hstale), Hfetch.
  eexists. split; [done|]. simpl. split; [done|].
  split; [apply lookup_delete_eq|].
  intros Heq. rewrite <- Heq, lookup_delete_eq in Hentry. done.
Qed.

End CacheStore.

(** One lookup of London on an empty cache, at times 0 (check), 1 (parse)
    and 2 (store): the record is fetched and stored. *)
Example first_lookup :
  get_weather PyStr.strip PyStr.lower Sample.msg Sample.as_float Sample.as_int
    Sample.as_str
    (Sample.serves Sample.london) (mkClock 0 1 2) " London " Sample.tool0
  = (Ok (Sample.london_record 1), Sample.tool_with_london 1 2,
     [Sample.london_request]).
Proof. vm_compute. reflexivity. Qed.

(** A city of three spaces: its normalised name is empty. *)
Lemma get_weather_blank_city_witness :
  get_weather PyStr.strip PyStr.lower Sample.msg Sample.as_float Sample.as_int
    Sample.as_str
    (Sample.serves Sample.london) (mkClock 0 1 2) "   " Sample.tool0
  = (Err (WeatherAPIError "Nome da cidade não pode estar vazio"),
     Sample.tool0, []).
Proof.
  apply (proj2 (get_weather_blank_city PyStr.strip PyStr.lower Sample.msg
                  Sample.as_float Sample.as_int Sample.as_str
                  (Sample.serves Sample.london) (mkClock 0 1 2)
                  "   " Sample.tool0)).
  - exact PyStrFacts.lower_keeps_blank.
  - reflexivity.
Defined.

(** Nine minutes after the fetch the record comes from the cache, though
    the service has become unreachable. *)
Lemma get_weather_fresh_hit_witness :
  get_weather PyStr.strip PyStr.lower Sample.msg Sample.as_float Sample.as_int
    Sample.as_str
    Sample.unreachable (mkClock (minutes 9) 0 0) "LONDON"
    (Sample.tool_with_london 1 2)
  = (Ok (Sample.london_record 1), Sample.tool_with_london 1 2, []).
Proof.
  apply (get_weather_fresh_hit PyStr.strip PyStr.lower Sample.msg
           Sample.as_float Sample.as_int
           Sample.as_str (Sample.serves Sample.london) (mkClock 0 1 2)
           " London " "LONDON" Sample.tool0 (Sample.london_record 1)
           (Sample.tool_with_london 1 2) Sample.london_request
           0 (minutes 9) Sample.unreachable (mkClock (minutes 9) 0 0)).
  - vm_compute. reflexivity.
  - right. split; [split; discriminate | reflexivity].
  - simpl. lia.
  - vm_compute. reflexivity.
  - reflexivity.
Defined.

(** Ten minutes after the entry was stored it is deleted and London is
    fetched again: the record parsed now is returned and stored in
    place of the old one. *)
Lemma get_weather_stale_refetch_witness :
  let clk := mkClock (2 + minutes 10) (3 + minutes 10) (4 + minutes 10) in
  let self := Sample.tool_with_london 1 2 in
  let record := Sample.london_record (3 + minutes 10) in
  let cache' :=
    <["london" := mkCacheEntry record (Some (4 + minutes 10))]> (_cache self)
  in
  get_weather PyStr.strip PyStr.lower Sample.msg Sample.as_float Sample.as_int
    Sample.as_str (Sample.serves Sample.london) clk " London " self
  = (Ok record, mkWeatherTool Sample.cfg cache', [Sample.london_request])
  /\ cache' !! "london"
     = Some (mkCacheEntry record (Some (4 + minutes 10)))
  /\ forall k, k <> "london" -> cache' !! k = _cache self !! k.
Proof.
  apply (get_weather_stale_refetch PyStr.strip PyStr.lower Sample.msg
           Sample.as_float Sample.as_int
           Sample.as_str (Sample.serves Sample.london)
           (mkClock (2 + minutes 10) (3 + minutes 10) (4 + minutes 10))
           " London " (Sample.tool_with_london 1 2)
           (mkCacheEntry (Sample.london_record 1) (Some 2)) 2 (minutes 10)).
  - split; discriminate.
  - vm_compute. reflexivity.
  - reflexivity.
  - vm_compute. discriminate.
  - reflexivity.
Defined.

(** The entry is stale and the service unreachable: the lookup fails and
    the cache ends up empty. *)
Lemma get_weather_stale_then_failure_witness :
  let clk := mkClock (2 + minutes 10) (3 + minutes 10) (4 + minutes 10) in
  let self := Sample.tool_with_london 1 2 in
  exists self',
    get_weather PyStr.strip PyStr.lower Sample.msg Sample.as_float Sample.as_int
      Sample.as_str Sample.unreachable clk " London " self
    = (Err (NetworkError "Timeout ao buscar  London "), self',
       [Sample.london_request])
    /\ _cache self' = delete "london" (_cache self)
    /\ _cache self' !! "london" = None
    /\ _cache self' <> _cache self.
Proof.
  apply (get_weather_stale_then_failure PyStr.strip PyStr.lower Sample.msg
           Sample.as_float
           Sample.as_int Sample.as_str Sample.unreachable
           (mkClock (2 + minutes 10) (3 + minutes 10) (4 + minutes 10))
           " London " (Sample.tool_with_london 1 2)
           (mkCacheEntry (Sample.london_record 1) (Some 2))).
  - split; discriminate.
  - vm_compute. reflexivity.
  - vm_compute. reflexivity.
  - vm_compute. reflexivity.
Defined.

(** ** Inversion of the error monad and of the accessors *)

Lemma bind_ok {A B : Type} (r : result A) (k : A -> result B) (b : B) :
  bind r k = Ok b -> exists a, r = Ok a /\ k a = Ok b.
Proof. destruct r as [a|e]; simpl; [eauto | discriminate]. Qed.

Lemma bind_err {A B : Type} (r : result A) (k : A -> result B) (e : exn) :
  bind r k = Err e -> r = Err e \/ exists a, r = Ok a /\ k a = Err e.
Proof. destruct r as [a|e']; simpl; [eauto | intros [= ->]; by left]. Qed.

Lemma subscript_ok (v : Json) (k : string) (x : Json) :
  subscript v k = Ok x -> exists d, v = JDict d /\ dict_get d k = Some x.
Proof.
  destruct v as [| | | | | |d]; simpl; try discriminate.
  destruct (dict_get d k) eqn:Hk; [|discriminate].
  intros [= <-]. eauto.
Qed.

Lemma subscript_key_error (v : Json) (k k' : string) :
  subscript v k = Err (KeyError k') ->
  k' = k /\ exists d, v = JDict d /\ dict_get d k = None.
Proof.
  destruct v as [| | | | | |d]; simpl; try discriminate.
  destruct (dict_get d k) eqn:Hk; [discriminate|].
  intros [= <-]. eauto.
Qed.

Lemma py_get_ok (v : Json) (k : string) (default x : Json) :
  py_get v k default = Ok x ->
  exists d, v = JDict d
            /\ x = match dict_get d k with Some y => y | None => default end.
Proof.
  destruct v as [| | | | | |d]; simpl; try discriminate.
  destruct (dict_get d k) eqn:Hk; intros [= <-]; exists d; by rewrite Hk.
Qed.

Lemma py_get_no_key_error (v : Json) (k : string) (default : Json) e :
  py_get v k default = Err e -> is_KeyError e = false.
Proof.
  destruct v as [| | | | | |d]; simpl; try (by intros [= <-]).
  destruct (dict_get d k); discriminate.
Qed.

Lemma py_iter_no_key_error (v : Json) e :
  py_iter v = Err e -> is_KeyError e = false.
Proof. destruct v; simpl; try discriminate; by intros [= <-]. Qed.

Lemma absent_In (d : list (string * Json)) (keys : list string) (k : string) :
  In k (absent d keys) <-> In k keys /\ dict_get d k = None.
Proof.
  unfold absent, has_key. rewrite List.filter_In.
  destruct (dict_get d k); simpl; intuition congruence.
Qed.

Lemma append_assoc (a b c : string) : (a ++ b) ++ c = a ++ (b ++ c).
Proof.
  induction a as [|x a IH]; [reflexivity|].
  change (String x ((a ++ b) ++ c) = String x (a ++ (b ++ c))).
  by rewrite IH.
Qed.


Lemma dict_get_app_other d (k k' : string) (v : Json) :
  k' <> k -> dict_get (d ++ [(k', v)]) k = dict_get d k.
Proof.
  intros Hne. induction d as [|[k0 v0] d IH]; simpl.
  - by rewrite (proj2 (String.eqb_neq k' k) Hne).
  - by destruct (String.eqb k0 k).
Qed.

Lemma dict_get_app_same d (k : string) (v : Json) :
  dict_get d k = None -> dict_get (d ++ [(k, v)]) k = Some v.
Proof.
  induction d as [|[k0 v0] d IH]; simpl.
  - by rewrite String.eqb_refl.
  - by destruct (String.eqb k0 k).
Qed.

(** ** The response parser *)

Section Parser.

Variable lib_msg : exn -> string.
Variable coerce_float : Json -> option Q.
Variable coerce_int : Json -> option Z.
Variable coerce_str : Json -> option string.

Abbreviation parse_item := (parse_description coerce_str).
Abbreviation body_of :=
  (parse_body coerce_float coerce_int coerce_str).
Abbreviation parse :=
  (_parse_response lib_msg coerce_float coerce_int coerce_str).

Ltac inv_ok H x Hx :=
  apply bind_ok in H; destruct H as (x & Hx & H).

Ltac inv_err H x Hx :=
  apply bind_err in H; destruct H as [H | (x & Hx & H)].

Lemma WeatherMain_init_err t tmin tmax h fl e :
  WeatherMain_init t tmin tmax h fl = Err e -> is_KeyError e = false.
Proof.
  unfold WeatherMain_init.
  destruct (validate_temperature t), (validate_temperature tmin),
    (validate_temperature tmax), (validate_humidity h);
    (discriminate || by intros [= <-]).
Qed.

Lemma WeatherMain_new_err t tmin tmax h fl e :
  WeatherMain_new coerce_float coerce_int t tmin tmax h fl = Err e ->
  is_KeyError e = false.
Proof.
  unfold WeatherMain_new.
  destruct (coerce_float t), (coerce_float tmin), (coerce_float tmax),
    (coerce_int h), (coerce_float fl);
    try (by intros [= <-]).
  apply WeatherMain_init_err.
Qed.

Lemma WeatherDescription_new_err m d i e :
  WeatherDescription_new coerce_str m d i = Err e -> is_KeyError e = false.
Proof.
  unfold WeatherDescription_new.
  destruct (coerce_str m), (coerce_str d), (coerce_str i);
    (discriminate || by intros [= <-]).
Qed.

Lemma WeatherData_new_err now name c m w e :
  WeatherData_new coerce_str now name c m w = Err e -> is_KeyError e = false.
Proof.
  unfold WeatherData_new.
  destruct (coerce_str name); [|by intros [= <-]].
  destruct c; try discriminate;
    destruct (coerce_str _); (discriminate || by intros [= <-]).
Qed.

Lemma parse_item_ok w x : parse_item w = Ok x -> absent_in_item w = [].
Proof.
  unfold parse_description. intros H.
  inv_ok H m Hm. inv_ok H d Hd. inv_ok H i Hi.
  apply subscript_ok in Hm as (o & -> & Hm).
  simpl in Hd, Hi.
  destruct (dict_get o "description") eqn:Hd'; [|discriminate].
  destruct (dict_get o "icon") eqn:Hi'; [|discriminate].
  unfold absent_in_item, absent, has_key. simpl.
  by rewrite Hm, Hd', Hi'.
Qed.

Lemma parse_item_key_error w k :
  parse_item w = Err (KeyError k) -> In k (absent_in_item w).
Proof.
  unfold parse_description. intros H.
  inv_err H m Hm.
  { apply subscript_key_error in H as (-> & o & -> & Hk).
    apply absent_In. split; [|done]. simpl. tauto. }
  apply subscript_ok in Hm as (o & -> & Hm).
  inv_err H d Hd.
  { apply subscript_key_error in H as (-> & o' & [= <-] & Hk).
    apply absent_In. split; [|done]. simpl. tauto. }
  inv_err H i Hi.
  { apply subscript_key_error in H as (-> & o' & [= <-] & Hk).
    apply absent_In. split; [|done]. simpl. tauto. }
  by apply WeatherDescription_new_err in H.
Qed.

Lemma mapM_parse_ok l xs :
  mapM parse_item l = Ok xs -> flat_map absent_in_item l = [].
Proof.
  revert xs. induction l as [|w l IH]; intros xs H; simpl in *; [done|].
  inv_ok H x Hx. inv_ok H ys Hys.
  by rewrite (parse_item_ok w x Hx), (IH ys Hys).
Qed.

Lemma mapM_parse_key_error l k :
  mapM parse_item l = Err (KeyError k) -> In k (flat_map absent_in_item l).
Proof.
  induction l as [|w l IH]; intros H; simpl in *; [discriminate|].
  apply in_app_iff.
  inv_err H x Hx; [left; by apply parse_item_key_error|].
  inv_err H ys Hys; [right; by apply IH | discriminate].
Qed.

(** The keys of a dict and the characters of a string are strings, and a
    string has no string subscript. *)
Lemma mapM_parse_strings (l : list Json) e :
  Forall (fun w => exists s, w = JStr s) l ->
  mapM parse_item l = Err e -> is_KeyError e = false.
Proof.
  intros Hl. induction Hl as [|w l [s ->] _ IH]; simpl; [discriminate|].
  by intros [= <-].
Qed.

Lemma py_iter_key_error ws items k :
  py_iter ws = Ok items ->
  mapM parse_item items = Err (KeyError k) ->
  ws = JList items.
Proof.
  destruct ws as [| | | |s|l|d]; simpl; try discriminate.
  - intros [= <-] H. apply mapM_parse_strings in H; [discriminate|].
    apply List.Forall_forall. intros w Hw.
    apply List.in_map_iff in Hw as (c & <- & _).
    eauto.
  - by intros [= <-] _.
  - intros [= <-] H. apply mapM_parse_strings in H; [discriminate|].
    apply List.Forall_forall. intros w Hw.
    apply List.in_map_iff in Hw as (c & <- & _).
    eauto.
Qed.

Lemma missing_fields_dict d k :
  In k (missing_fields (JDict d)) <->
  (k = "main" /\ dict_get d "main" = None)
  \/ (exists m, dict_get d "main" = Some (JDict m)
                /\ In k (absent m main_fields))
  \/ (exists l, dict_get d "weather" = Some (JList l)
                /\ In k (flat_map absent_in_item l))
  \/ (k = "name" /\ dict_get d "name" = None).
Proof.
  unfold missing_fields. rewrite !in_app_iff, !absent_In. simpl.
  split.
  - intros [[[<-|[]] H]|[H|[H|[[<-|[]] H]]]]; [by left | | | by do 3 right].
    + right; left. destruct (dict_get d "main") as [[| | | | | |m]|];
        try (by inversion H). eauto.
    + do 2 right; left. destruct (dict_get d "weather") as [[| | | | |l|]|];
        try (by inversion H). eauto.
  - intros [[-> H]|[(m & -> & H)|[(l & -> & H)|[-> H]]]]; auto 10.
Qed.

(** A body that parses lacks none of the subscripted fields. *)
Lemma parse_body_ok_complete now data r :
  body_of now data = Ok r -> missing_fields data = [].
Proof.
  unfold parse_body. intros H.
  inv_ok H x0 H0. apply py_get_ok in H0 as (d & -> & _).
  inv_ok H m1 Hm. simpl in Hm.
  destruct (dict_get d "main") as [m|] eqn:Hmain; [|discriminate].
  injection Hm as <-.
  inv_ok H t Ht. apply subscript_ok in Ht as (md & -> & Ht).
  inv_ok H m2 Hm2. simpl in Hm2. rewrite Hmain in Hm2. injection Hm2 as <-.
  inv_ok H tmin Htmin. simpl in Htmin.
  inv_ok H m3 Hm3. simpl in Hm3. rewrite Hmain in Hm3. injection Hm3 as <-.
  inv_ok H tmax Htmax. simpl in Htmax.
  inv_ok H m4 Hm4. simpl in Hm4. rewrite Hmain in Hm4. injection Hm4 as <-.
  inv_ok H h Hh. simpl in Hh.
  inv_ok H m5 Hm5. simpl in Hm5. rewrite Hmain in Hm5. injection Hm5 as <-.
  inv_ok H fl Hfl. simpl in Hfl.
  inv_ok H wm Hwm.
  inv_ok H ws Hws. apply py_get_ok in Hws as (d' & [= <-] & ->).
  inv_ok H items Hitems.
  inv_ok H wl Hwl.
  inv_ok H name Hname. simpl in Hname.
  unfold missing_fields, absent, has_key. simpl.
  rewrite Hmain, Ht. simpl.
  destruct (dict_get md "temp_min"); [|discriminate].
  destruct (dict_get md "temp_max"); [|discriminate].
  destruct (dict_get md "humidity"); [|discriminate].
  destruct (dict_get md "feels_like"); [|discriminate].
  destruct (dict_get d "name"); [|discriminate]. simpl.
  rewrite app_nil_r.
  destruct (dict_get d "weather") as [[| | | | |l|]|]; try done.
  simpl in Hitems. injection Hitems as <-.
  by apply mapM_parse_ok in Hwl.
Qed.

(** A [KeyError] in the [try] block is the absence of one of the
    subscripted fields; it carries the name of that field. *)
Lemma parse_body_key_error now data k :
  body_of now data = Err (KeyError k) -> In k (missing_fields data).
Proof.
  unfold parse_body. intros H.
  inv_err H x0 H0; [by apply py_get_no_key_error in H|].
  apply py_get_ok in H0 as (d & -> & _).
  apply missing_fields_dict.
  inv_err H m1 Hm.
  { apply subscript_key_error in H as (-> & d' & [= <-] & Hk). by left. }
  simpl in Hm. destruct (dict_get d "main") as [m|] eqn:Hmain; [|discriminate].
  injection Hm as <-.
  assert (Hblock : forall f, In f main_fields ->
            subscript m f = Err (KeyError k) ->
            exists md, Some m = Some (JDict md)
                       /\ In k (absent md main_fields)).
  { intros f Hf Hsub.
    apply subscript_key_error in Hsub as (-> & md & -> & Hk).
    exists md. split; [done|]. by apply absent_In. }
  inv_err H t Ht; [right; left; apply (Hblock "temp"); simpl; tauto|].
  inv_err H m2 Hm2; [simpl in H; rewrite Hmain in H; discriminate|].
  simpl in Hm2. rewrite Hmain in Hm2. injection Hm2 as <-.
  inv_err H tmin Htmin; [right; left; apply (Hblock "temp_min"); simpl; tauto|].
  inv_err H m3 Hm3; [simpl in H; rewrite Hmain in H; discriminate|].
  simpl in Hm3. rewrite Hmain in Hm3. injection Hm3 as <-.
  inv_err H tmax Htmax; [right; left; apply (Hblock "temp_max"); simpl; tauto|].
  inv_err H m4 Hm4; [simpl in H; rewrite Hmain in H; discriminate|].
  simpl in Hm4. rewrite Hmain in Hm4. injection Hm4 as <-.
  inv_err H h Hh; [right; left; apply (Hblock "humidity"); simpl; tauto|].
  inv_err H m5 Hm5; [simpl in H; rewrite Hmain in H; discriminate|].
  simpl in Hm5. rewrite Hmain in Hm5. injection Hm5 as <-.
  inv_err H fl Hfl;
    [right; left; apply (Hblock "feels_like"); simpl; tauto|].
  inv_err H wm Hwm; [by apply WeatherMain_new_err in H|].
  inv_err H ws Hws; [by apply py_get_no_key_error in H|].
  apply py_get_ok in Hws as (d' & [= <-] & Hws).
  inv_err H items Hitems; [by apply py_iter_no_key_error in H|].
  inv_err H wl Hwl.
  { pose proof (py_iter_key_error _ _ _ Hitems H) as ->.
    apply mapM_parse_key_error in H.
    destruct (dict_get d "weather") as [w|] eqn:Hw.
    - subst w. do 2 right; left. eauto.
    - injection Hws as Hnil. subst items. inversion H. }
  inv_err H name Hname.
  { apply subscript_key_error in H as (-> & d' & [= <-] & Hk).
    by do 3 right. }
  inv_err H sys Hsys; [by apply py_get_no_key_error in H|].
  inv_err H ctry Hctry; [by apply py_get_no_key_error in H|].
  by apply WeatherData_new_err in H.
Qed.

(** The clock reaches the result only as the record's [timestamp]. *)
Lemma parse_body_clock now1 now2 data :
  body_of now2 data = result_map (with_timestamp now2) (body_of now1 data).
Proof.
  unfold parse_body.
  repeat match goal with
         | |- context [bind ?r _] => destruct r; simpl; [|done]
         end.
  unfold WeatherData_new.
  destruct (coerce_str _); [|done].
  match goal with |- context [match ?c with JNull => _ | _ => _ end] =>
    destruct c; try done; by destruct (coerce_str _)
  end.
Qed.

Lemma parse_body_timestamp now data r :
  body_of now data = Ok r -> timestamp r = now.
Proof.
  intros H.
  pose proof (parse_body_clock now now data) as Hc. rewrite H in Hc.
  by injection Hc as ->.
Qed.

Lemma incomplete_msg_key k :
  incomplete_msg lib_msg (KeyError k)
  = "Dados incompletos da API: campo '" ++ k ++ "' não encontrado".
Proof.
  unfold incomplete_msg. simpl str_exn.
  by rewrite !append_assoc.
Qed.

(** A body without ["main"] is refused with that name. *)
Lemma parse_names_main now d :
  dict_get d "main" = None ->
  parse now (JDict d)
  = Err (WeatherAPIError
           "Dados incompletos da API: campo 'main' não encontrado").
Proof.
  intros Hmain. unfold _parse_response, parse_body. simpl.
  destruct (dict_get d "name"); simpl; by rewrite Hmain.
Qed.

(** When the ["main"] block lacks some of its numbers, the message names
    the first one lacking, in the order in which the parser reads them. *)
Lemma parse_names_main_field now d m k rest :
  dict_get d "main" = Some (JDict m) ->
  absent m main_fields = k :: rest ->
  parse now (JDict d)
  = Err (WeatherAPIError
           ("Dados incompletos da API: campo '" ++ k ++ "' não encontrado")).
Proof.
  intros Hmain Habs. rewrite <- incomplete_msg_key.
  unfold _parse_response, parse_body. simpl.
  assert (Hget : py_get (JDict d) "name" (JStr "unknown")
                 = Ok (match dict_get d "name" with
                       | Some y => y | None => JStr "unknown" end)).
  { simpl. by destruct (dict_get d "name"). }
  simpl in Hget. rewrite Hget, Hmain. simpl.
  unfold absent, has_key in Habs. simpl in Habs.
  destruct (dict_get m "temp"); simpl in *; [|by injection Habs as <- _].
  destruct (dict_get m "temp_min"); simpl in *; [|by injection Habs as <- _].
  destruct (dict_get m "temp_max"); simpl in *; [|by injection Habs as <- _].
  destruct (dict_get m "humidity"); simpl in *; [|by injection Habs as <- _].
  destruct (dict_get m "feels_like"); simpl in *; [|by injection Habs as <- _].
  discriminate.
Qed.

(** A body without ["weather"] is read as the same body with an empty
    list of conditions. *)
Lemma parse_weather_default now d :
  dict_get d "weather" = None ->
  parse now (JDict d) = parse now (JDict (d ++ [("weather", JList [])])).
Proof.
  intros Hw. unfold _parse_response, parse_body. simpl.
  rewrite (dict_get_app_other d "name" "weather") by discriminate.
  rewrite (dict_get_app_other d "main" "weather") by discriminate.
  rewrite (dict_get_app_other d "sys" "weather") by discriminate.
  by rewrite (dict_get_app_same d "weather" _ Hw), Hw.
Qed.

(** The [try] block is the log line, [main], [weather_list] and the
    record, in this order. *)
Lemma parse_body_steps now data :
  body_of now data
  = (let* _ := py_get data "name" (JStr "unknown") in
     let* main := read_main coerce_float coerce_int data in
     let* weather_list := read_weather coerce_str data in
     let* name := subscript data "name" in
     let* sys := py_get data "sys" (JDict []) in
     let* country := py_get sys "country" JNull in
     WeatherData_new coerce_str now name country main weather_list).
Proof.
  unfold parse_body, read_main, read_weather.
  repeat match goal with
         | |- context [bind ?r _] => destruct r; simpl; [|done]
         end.
  done.
Qed.

Lemma parse_steps_dict now d :
  parse now (JDict d)
  = match
      (let* main := read_main coerce_float coerce_int (JDict d) in
       let* weather_list := read_weather coerce_str (JDict d) in
       let* name := subscript (JDict d) "name" in
       let* sys := py_get (JDict d) "sys" (JDict []) in
       let* country := py_get sys "country" JNull in
       WeatherData_new coerce_str now name country main weather_list)
    with
    | Ok weather_data => Ok weather_data
    | Err e =>
        if is_KeyError e
        then Err (WeatherAPIError (incomplete_msg lib_msg e))
        else Err (WeatherAPIError
                    ("Erro ao processar dados: " ++ str_exn lib_msg e))
    end.
Proof.
  unfold _parse_response. rewrite parse_body_steps.
  simpl. by destruct (dict_get d "name").
Qed.

(** A ["main"] that is no object has no fields to lack: the subscript
    raises [TypeError]. *)
Lemma parse_main_not_dict now d m :
  dict_get d "main" = Some m ->
  (forall md, m <> JDict md) ->
  parse now (JDict d)
  = Err (WeatherAPIError
           ("Erro ao processar dados: " ++ str_exn lib_msg TypeError)).
Proof.
  intros Hmain Hm. rewrite parse_steps_dict. unfold read_main. simpl.
  rewrite Hmain. simpl.
  destruct m as [| | | | | |md]; try done. by destruct (Hm md).
Qed.

(** A listed condition that lacks some of its texts raises [KeyError]
    for the first one lacking. *)
Lemma parse_item_names o k rest :
  absent o description_fields = k :: rest ->
  parse_item (JDict o) = Err (KeyError k).
Proof.
  intros Habs. unfold parse_description. simpl.
  unfold absent, has_key in Habs. simpl in Habs.
  destruct (dict_get o "main"); simpl in *; [|by injection Habs as <- _].
  destruct (dict_get o "description"); simpl in *;
    [|by injection Habs as <- _].
  destruct (dict_get o "icon"); simpl in *; [|by injection Habs as <- _].
  discriminate.
Qed.

Lemma mapM_app_err {A B : Type} (f : A -> result B) pre w post xs e :
  mapM f pre = Ok xs -> f w = Err e -> mapM f (pre ++ w :: post) = Err e.
Proof.
  revert xs. induction pre as [|x pre IH]; intros xs Hpre Hw; simpl.
  - by rewrite Hw.
  - simpl in Hpre. destruct (f x) as [y|e']; simpl in *; [|discriminate].
    destruct (mapM f pre) as [ys|e'] eqn:Hys; simpl in *; [|discriminate].
    by rewrite (IH ys eq_refl Hw).
Qed.

Lemma parse_names_item_field now d main pre o post xs k rest :
  read_main coerce_float coerce_int (JDict d) = Ok main ->
  dict_get d "weather" = Some (JList (pre ++ JDict o :: post)) ->
  mapM parse_item pre = Ok xs ->
  absent o description_fields = k :: rest ->
  parse now (JDict d)
  = Err (WeatherAPIError
           ("Dados incompletos da API: campo '" ++ k ++ "' não encontrado")).
Proof.
  intros Hmain Hw Hpre Habs. rewrite <- incomplete_msg_key.
  rewrite parse_steps_dict, Hmain. unfold read_weather. simpl.
  rewrite Hw. simpl.
  by rewrite (mapM_app_err _ _ _ _ _ _ Hpre (parse_item_names _ _ _ Habs)).
Qed.

Lemma parse_names_name_field now d main weather_list :
  read_main coerce_float coerce_int (JDict d) = Ok main ->
  read_weather coerce_str (JDict d) = Ok weather_list ->
  dict_get d "name" = None ->
  parse now (JDict d)
  = Err (WeatherAPIError
           "Dados incompletos da API: campo 'name' não encontrado").
Proof.
  intros Hmain Hw Hname. rewrite parse_steps_dict, Hmain, Hw. simpl.
  by rewrite Hname.
Qed.

(** A value that is refused before the missing field is reached hides
    it: the message is that of the refusal. *)
Lemma parse_main_refused now d e :
  read_main coerce_float coerce_int (JDict d) = Err e ->
  is_KeyError e = false ->
  parse now (JDict d)
  = Err (WeatherAPIError ("Erro ao processar dados: " ++ str_exn lib_msg e)).
Proof.
  intros Hmain He. rewrite parse_steps_dict, Hmain. simpl. by rewrite He.
Qed.

Lemma parse_weather_refused now d main e :
  read_main coerce_float coerce_int (JDict d) = Ok main ->
  read_weather coerce_str (JDict d) = Err e ->
  is_KeyError e = false ->
  parse now (JDict d)
  = Err (WeatherAPIError ("Erro ao processar dados: " ++ str_exn lib_msg e)).
Proof.
  intros Hmain Hw He. rewrite parse_steps_dict, Hmain, Hw. simpl.
  by rewrite He.
Qed.

(** C5, as the code has it. A body that is an object and lacks a field
    the parser reads by subscript (["main"], ["name"], one of the five
    numbers of the ["main"] block, one of the three texts of a listed
    condition) never yields a record: the [try] block raises, and the
    tool's base error is raised in its place. The error names the first
    field found missing, in the order of reading, when nothing read
    before it was refused: ["main"]; else the first number lacking in
    the ["main"] block; else, once [main] is built, the first text
    lacking in the first incomplete condition, the conditions before it
    being built; else, once the conditions are built too, ["name"]. When
    a value read before it is refused, the error reports that refusal
    and names no field; so it does when ["main"], or the body itself, is
    no object. *)
Theorem parse_missing_field now (d : list (string * Json)) :
  let data := JDict d in
  let named (k : string) : result WeatherData :=
    Err (WeatherAPIError
           ("Dados incompletos da API: campo '" ++ k ++ "' não encontrado")) in
  let refused (e : exn) : result WeatherData :=
    Err (WeatherAPIError
           ("Erro ao processar dados: " ++ str_exn lib_msg e)) in
  (missing_fields data <> [] ->
   exists e,
     body_of now data = Err e
     /\ ((exists k, e = KeyError k /\ In k (missing_fields data)
                    /\ parse now data = named k)
         \/ (is_KeyError e = false /\ parse now data = refused e)))
  /\ (dict_get d "main" = None -> parse now data = named "main")
  /\ (forall m k rest,
        dict_get d "main" = Some (JDict m) ->
        absent m main_fields = k :: rest ->
        parse now data = named k)
  /\ (forall main pre o post xs k rest,
        read_main coerce_float coerce_int data = Ok main ->
        dict_get d "weather" = Some (JList (pre ++ JDict o :: post)) ->
        mapM parse_item pre = Ok xs ->
        absent o description_fields = k :: rest ->
        parse now data = named k)
  /\ (forall main weather_list,
        read_main coerce_float coerce_int data = Ok main ->
        read_weather coerce_str data = Ok weather_list ->
        dict_get d "name" = None ->
        parse now data = named "name")
  /\ (forall m,
        dict_get d "main" = Some m -> (forall md, m <> JDict md) ->
        parse now data = refused TypeError)
  /\ (forall e,
        read_main coerce_float coerce_int data = Err e ->
        is_KeyError e = false ->
        parse now data = refused e)
  /\ (forall main e,
        read_main coerce_float coerce_int data = Ok main ->
        read_weather coerce_str data = Err e ->
        is_KeyError e = false ->
        parse now data = refused e)
  /\ (forall body,
        (forall d', body <> JDict d') ->
        parse now body = refused AttributeError).
Proof.
  intros data named refused. subst data named refused. cbv beta.
  split; [|split; [|split; [|split; [|split; [|split; [|split; [|split]]]]]]].
  - intros Hmissing. unfold _parse_response.
    destruct (body_of now (JDict d)) as [r|e] eqn:Hbody.
    + by apply parse_body_ok_complete in Hbody.
    + exists e. split; [done|]. destruct (is_KeyError e) eqn:He.
      * destruct e; try discriminate. left. exists key.
        split; [done|]. split; [by apply (parse_body_key_error now)|].
        by rewrite incomplete_msg_key.
      * by right.
  - apply parse_names_main.
  - intros m k rest. apply parse_names_main_field.
  - intros main pre o post xs k rest. apply parse_names_item_field.
  - intros main weather_list. apply parse_names_name_field.
  - intros m. apply parse_main_not_dict.
  - intros e. apply parse_main_refused.
  - intros main e. apply parse_weather_refused.
  - intros body Hbody. destruct body as [| | | | | |d']; try done.
    by destruct (Hbody d').
Qed.

(** C7, as the code has it: the parser reads the clock. Two runs on the
    same body give the same failure, or two records that agree on every
    field but [timestamp], which is the reading of the clock of each
    run. *)
Theorem parse_deterministic_up_to_clock now1 now2 data :
  parse now2 data = result_map (with_timestamp now2) (parse now1 data)
  /\ (forall r, parse now1 data = Ok r -> timestamp r = now1).
Proof.
  unfold _parse_response. split.
  - rewrite (parse_body_clock now1 now2).
    destruct (body_of now1 data) as [r|e]; simpl; [done|].
    by destruct (is_KeyError e).
  - destruct (body_of now1 data) as [r'|e] eqn:Hbody.
    + intros r [= <-]. by apply parse_body_timestamp in Hbody.
    + by destruct (is_KeyError e).
Qed.

End Parser.

(** A body without ["weather"]: the subscript would raise, the parser
    reads it with a default and builds a record with no description. *)
Lemma parse_defaults_missing_weather :
  subscript Sample.london_no_weather "weather" = Err (KeyError "weather")
  /\ _parse_response Sample.msg Sample.as_float Sample.as_int Sample.as_str
       0 Sample.london_no_weather
     = Ok (mkWeatherData "London" (Some "GB") Sample.london_main [] 0).
Proof. split; vm_compute; reflexivity. Qed.

(** A body without ["name"] whose temperature is out of range: the
    temperature is refused first and the message does not name the
    field. *)
Example parse_masks_missing_name :
  _parse_response Sample.msg Sample.as_float Sample.as_int Sample.as_str 0
    (JDict [("main",
             JDict [("temp", JInt 70); ("temp_min", JInt 12);
                    ("temp_max", JInt 18); ("humidity", JInt 72);
                    ("feels_like", JInt 15)])])
  = Err (WeatherAPIError "Erro ao processar dados: library error").
Proof. vm_compute. reflexivity. Qed.

(** The ["main"] block alone: the numbers are accepted, there is no
    condition to build, and the error names ["name"]. *)
Lemma parse_missing_field_witness :
  let data := JDict [("main", Sample.main_block)] in
  missing_fields data = ["name"]
  /\ _parse_response Sample.msg Sample.as_float Sample.as_int Sample.as_str 0
       data
     = Err (WeatherAPIError
              "Dados incompletos da API: campo 'name' não encontrado").
Proof.
  split; [reflexivity|].
  apply (proj1 (proj2 (proj2 (proj2 (proj2
           (parse_missing_field Sample.msg Sample.as_float Sample.as_int
              Sample.as_str 0 [("main", Sample.main_block)])))))
           Sample.london_main []);
    vm_compute; reflexivity.
Defined.

Example parse_names_name :
  _parse_response Sample.msg Sample.as_float Sample.as_int Sample.as_str 0
    (JDict [("main", Sample.main_block)])
  = Err (WeatherAPIError
           "Dados incompletos da API: campo 'name' não encontrado").
Proof. vm_compute. reflexivity. Qed.

(** The same body parsed at two times: two records, not equal. *)
Lemma parse_timestamp_differs :
  _parse_response Sample.msg Sample.as_float Sample.as_int Sample.as_str
    0 Sample.london = Ok (Sample.london_record 0)
  /\ _parse_response Sample.msg Sample.as_float Sample.as_int Sample.as_str
       1 Sample.london = Ok (Sample.london_record 1)
  /\ Sample.london_record 0 <> Sample.london_record 1.
Proof. repeat split; try (vm_compute; reflexivity). discriminate. Qed.

(** ** The fetch client *)



(** A status outside 400..599 does not raise: the body is read. *)
Lemma raise_for_status_pass (r : Response) :
  ~ error_status (status_code r) -> raise_for_status r = Ok tt.
Proof.
  intros Hs. unfold raise_for_status, http_error_msg.
  destruct (400 <=? status_code r) eqn:H4;
    destruct (status_code r <? 500) eqn:H5;
    destruct (500 <=? status_code r) eqn:H5';
    destruct (status_code r <? 600) eqn:H6; simpl; try done;
    exfalso; apply Hs; unfold error_status; lia.
Qed.

Section Fetch.

Variable str_strip : string -> string.
Variable str_lower : string -> string.
Variable lib_msg : exn -> string.
Variable coerce_float : Json -> option Q.
Variable coerce_int : Json -> option Z.
Variable coerce_str : Json -> option string.

Abbreviation fetch_api :=
  (_fetch_from_api str_strip lib_msg coerce_float coerce_int coerce_str).

(** Whatever is raised once a response is there leaves the client as one
    of the errors of exceptions.py. *)
Lemma fetch_except_typed (city : string) (r : Response) (e : exn) :
  is_WeatherAPIError (fetch_except lib_msg city (Some r) e) = true.
Proof.
  unfold fetch_except.
  destruct (is_HTTPError e);
    [|by destruct (is_Timeout e), (is_RequestException e)].
  by destruct (status_code r =? 404), (status_code r =? 401).
Qed.


End Fetch.


Example fetch_404 :
  _fetch_from_api PyStr.strip Sample.msg Sample.as_float Sample.as_int
    Sample.as_str
    Sample.cfg (Sample.answers 404 "Not Found") 0 "Narnia"
  = (Err (CityNotFoundError "Cidade 'Narnia' não encontrada"),
     [fetch_request PyStr.strip Sample.cfg "Narnia"]).
Proof. vm_compute. reflexivity. Qed.

Example fetch_503 :
  fst (_fetch_from_api PyStr.strip Sample.msg Sample.as_float Sample.as_int
         Sample.as_str
         Sample.cfg (Sample.answers 503 "Service Unavailable") 0 "London")
  = Err (WeatherAPIError
           ("Erro na API: 503 Server Error: Service Unavailable for url: "
            ++ Sample.url)).
Proof. vm_compute. reflexivity. Qed.


(** A 304 has no body: reading it fails, and the failure leaves the
    fetch as a connection error, not as an error of the service. *)
Example fetch_304 :
  exists m,
    _fetch_from_api PyStr.strip Sample.msg Sample.as_float Sample.as_int
      Sample.as_str Sample.cfg (Sample.answers 304 "Not Modified") 0 "London"
    = (Err (NetworkError m), [Sample.london_request]).
Proof. eexists. vm_compute. reflexivity. Qed.

(** ** The weather models *)

Lemma temperature_ok_iff (v : Q) :
  temperature_ok v = true <-> (-50 # 1 <= v /\ v <= 60 # 1)%Q.
Proof.
  unfold temperature_ok. rewrite andb_true_iff, !Qle_bool_iff. tauto.
Qed.

Lemma humidity_ok_iff (h : Z) : humidity_ok h = true <-> 0 <= h <= 100.
Proof. unfold humidity_ok. rewrite andb_true_iff. lia. Qed.

(** [round_half_even] is within one half of its argument. *)
Lemma round_half_even_bounds (q : Q) :
  let d := Zpos (Qden q) in
  2 * round_half_even q * d - d <= 2 * Qnum q
  /\ 2 * Qnum q <= 2 * round_half_even q * d + d.
Proof.
  unfold round_half_even. simpl.
  set (n := Qnum q). set (d := Zpos (Qden q)).
  assert (Hd : 0 < d) by (unfold d; lia).
  pose proof (Z.div_mod n d ltac:(lia)) as Hdm.
  pose proof (Z.mod_pos_bound n d Hd) as Hr.
  set (k := n / d) in *. set (r := n mod d) in *. clearbody k r n d.
  destruct (Z.compare_spec (2 * r) d) as [Hc|Hc|Hc].
  - destruct (Z.even k); nia.
  - nia.
  - nia.
Qed.

(** [round1 v] is a number of tenths, at most one twentieth from [v]. *)
Lemma round1_nearest (v : Q) :
  Qden (round1 v) = 10%positive
  /\ (v - (1 # 20) <= round1 v /\ round1 v <= v + (1 # 20))%Q.
Proof.
  split; [reflexivity|].
  pose proof (round_half_even_bounds (v * (10 # 1))) as Hb.
  unfold round1. set (z := round_half_even (v * (10 # 1))) in *.
  destruct v as [n d]. simpl in Hb. rewrite Pos.mul_1_r in Hb.
  unfold Qle, Qminus, Qplus, Qopp. simpl.
  rewrite !Pos2Z.inj_mul. nia.
Qed.

(** C3, as the code has it: the construction succeeds exactly when the
    current, minimum and maximum temperatures lie in [-50, 60] and the
    humidity in 0..100, and fails with [ValidationError] otherwise; on
    success these three temperatures are rounded to one decimal place.
    The feels-like temperature is neither bounded nor rounded. *)
Theorem WeatherMain_init_checks (t tmin tmax : Q) (h : Z) (fl : Q) :
  WeatherMain_init t tmin tmax h fl
  = (if temperature_ok t && temperature_ok tmin && temperature_ok tmax
        && humidity_ok h
     then Ok (mkWeatherMain (round1 t) (round1 tmin) (round1 tmax) h fl)
     else Err (ValidationError "WeatherMain"))
  /\ Qden (round1 t) = 10%positive
  /\ Qden (round1 tmin) = 10%positive
  /\ Qden (round1 tmax) = 10%positive.
Proof.
  split; [|done].
  unfold WeatherMain_init, validate_temperature, validate_humidity.
  fold (temperature_ok t) (temperature_ok tmin) (temperature_ok tmax)
       (humidity_ok h).
  by destruct (temperature_ok t), (temperature_ok tmin),
    (temperature_ok tmax), (humidity_ok h).
Qed.

(** A feels-like temperature of 100.55 degrees is accepted as it is. *)
Lemma feels_like_unchecked :
  WeatherMain_init (20 # 1) (20 # 1) (20 # 1) 50 (10055 # 100)
  = Ok (mkWeatherMain (200 # 10) (200 # 10) (200 # 10) 50 (10055 # 100))
  /\ temperature_ok (10055 # 100) = false
  /\ round1 (10055 # 100) <> (10055 # 100).
Proof. repeat split; try (vm_compute; reflexivity). discriminate. Qed.

Example temperature_70_refused :
  WeatherMain_init (70 # 1) (20 # 1) (20 # 1) 50 (20 # 1)
  = Err (ValidationError "WeatherMain").
Proof. reflexivity. Qed.

Example temperature_59_9_accepted :
  WeatherMain_init (599 # 10) (20 # 1) (20 # 1) 50 (20 # 1)
  = Ok (mkWeatherMain (599 # 10) (200 # 10) (200 # 10) 50 (20 # 1)).
Proof. reflexivity. Qed.

Example humidity_101_refused :
  WeatherMain_init (20 # 1) (20 # 1) (20 # 1) 101 (20 # 1)
  = Err (ValidationError "WeatherMain").
Proof. reflexivity. Qed.

Example humidity_0_and_100_accepted :
  is_ok (WeatherMain_init (20 # 1) (20 # 1) (20 # 1) 0 (20 # 1)) = true
  /\ is_ok (WeatherMain_init (20 # 1) (20 # 1) (20 # 1) 100 (20 # 1)) = true.
Proof. split; reflexivity. Qed.

(** ** Clearing the cache *)

(** C8, as the code has it: [clear_cache] returns [None], not a count
    (the number of entries appears in the logged line only), and leaves
    the cache empty; the statistics taken afterwards report no city, no
    valid entry, no expired entry and an empty list of cities. *)
Theorem clear_cache_then_info (self : WeatherTool) (now_at : nat -> Time) :
  let '(returned, self', line) := clear_cache self in
  returned = PyNone
  /\ _cache self' = ∅
  /\ line = "Cache limpo: " ++ pretty (size (_cache self))
            ++ " entradas removidas"
  /\ total_cities (get_cache_info now_at self') = O
  /\ valid_entries (get_cache_info now_at self') = O
  /\ expired_entries (get_cache_info now_at self') = 0
  /\ cached_cities (get_cache_info now_at self') = [].
Proof.
  unfold clear_cache, get_cache_info. simpl.
  rewrite map_to_list_empty, map_size_empty. simpl. done.
Qed.

(** With one city cached, [clear_cache] does not return 1. *)
Lemma clear_cache_returns_none :
  size (_cache (Sample.tool_with_london 1 2)) = 1%nat
  /\ fst (fst (clear_cache (Sample.tool_with_london 1 2))) = PyNone
  /\ PyNone <> PyInt 1.
Proof. repeat split; try (vm_compute; reflexivity). discriminate. Qed.

(** ** The adapters *)

Section AdapterProperties.

Variable isoformat : Time -> string.
Variable str_float : Q -> string.

Lemma first_description_total (self : WeatherData) (default : string) :
  first_description self default = Ok (conditions_of self default).
Proof. unfold first_description, conditions_of. by destruct (weather self). Qed.

(** C9: both adapters return a value for every record. The agent format
    has ["unknown"] as conditions and the display text has ["N/A"] when
    the record has no description; otherwise both have the text of the
    first description. *)
Theorem adapters_total (self : WeatherData) :
  (exists a,
     to_agent_format isoformat self = Ok a
     /\ conditions a = conditions_of self "unknown"
     /\ location a = mkLocation (city_name self) (country self)
     /\ temperature a
        = mkTemperature (temp (main self)) (temp_min (main self))
            (temp_max (main self)) (feels_like (main self))
     /\ af_humidity a = humidity (main self)
     /\ af_timestamp a = isoformat (timestamp self))
  /\ to_display_format str_float self
     = Ok (nl ++ "🌡️ Clima em " ++ city_name self ++ nl
           ++ "Temperatura: " ++ str_float (temp (main self))
           ++ "°C (sensação: " ++ str_float (feels_like (main self))
           ++ "°C)" ++ nl
           ++ "Condições: " ++ conditions_of self "N/A" ++ nl
           ++ "Umidade: " ++ pretty (humidity (main self)) ++ "%" ++ nl)
  /\ (weather self = [] ->
      conditions_of self "unknown" = "unknown"
      /\ conditions_of self "N/A" = "N/A")
  /\ (forall w ws d, weather self = w :: ws ->
      conditions_of self d = description w).
Proof.
  unfold to_agent_format, to_display_format.
  rewrite !first_description_total. simpl.
  split; [eexists; split; [reflexivity|]; simpl; done|].
  split; [done|].
  unfold conditions_of.
  split; [by intros ->|]. by intros w ws d ->.
Qed.

End AdapterProperties.

(** * Further properties of the code *)

(** ** More on the cache store *)

Section CacheStoreMore.

Variable str_strip : string -> string.
Variable str_lower : string -> string.
Variable lib_msg : exn -> string.
Variable coerce_float : Json -> option Q.
Variable coerce_int : Json -> option Z.
Variable coerce_str : Json -> option string.

Abbreviation fetch_ :=
  (_fetch_from_api str_strip lib_msg coerce_float coerce_int coerce_str).
Abbreviation get_ :=
  (get_weather str_strip str_lower lib_msg coerce_float coerce_int
     coerce_str).
Abbreviation key_of := (cache_key str_strip str_lower).

(** The three ways through [get_weather]. *)
Lemma get_weather_cases net clk (city : string) self :
  ((city = "" \/ str_strip city = "")
   /\ get_ net clk city self
      = (Err (WeatherAPIError "Nome da cidade não pode estar vazio"),
         self, []))
  \/ (accepted str_strip city
      /\ exists e,
          _cache self !! key_of city = Some e
          /\ _is_cache_valid (at_check clk) e = true
          /\ get_ net clk city self = (Ok (entry_data e), self, []))
  \/ (accepted str_strip city
      /\ (forall e, _cache self !! key_of city = Some e ->
                    _is_cache_valid (at_check clk) e = false)
      /\ exists res,
          fetch_ (config self) net (at_parse clk) city
          = (res, [fetch_request str_strip (config self) city])
          /\ get_ net clk city self
             = (res,
                mkWeatherTool (config self)
                  (cache_after_fetch (key_of city) (at_store clk) res
                     (_cache self)),
                [fetch_request str_strip (config self) city])).
Proof.
  unfold get_weather.
  destruct (negb (PyStr.truthy city) || _) eqn:Hguard.
  { left. split; [|done]. by apply guard_iff. }
  right. apply guard_false in Hguard.
  unfold check_cache.
  pose proof (fetch_sends_one str_strip lib_msg coerce_float coerce_int
                coerce_str (config self) net (at_parse clk) city) as Hsent.
  destruct (_cache self !! key_of city) as [e|] eqn:He.
  - destruct (_is_cache_valid (at_check clk) e) eqn:Hv.
    + left. split; [done|]. by exists e.
    + right. split; [done|]. split; [by intros e' [= <-]|].
      destruct (fetch_ (config self) net (at_parse clk) city)
        as [[r|err] sent]; simpl in Hsent; subst sent;
        eexists; (split; [reflexivity|done]).
  - right. split; [done|]. split; [done|].
    destruct (fetch_ (config self) net (at_parse clk) city)
      as [[r|err] sent]; simpl in Hsent; subst sent;
      eexists; (split; [reflexivity|]); simpl;
      by rewrite (delete_id _ _ He).
Qed.

Lemma is_cache_valid_true now e :
  _is_cache_valid now e = true ->
  exists T, entry_timestamp e = Some T /\ now - T < _cache_duration.
Proof.
  unfold _is_cache_valid. destruct (entry_timestamp e) as [T|]; [|done].
  intros H. exists T. split; [done|]. by apply Z.ltb_lt.
Qed.

Lemma accepted_not_refused (city : string) :
  accepted str_strip city -> ~ (city = "" \/ str_strip city = "").
Proof. intros [Hc Hs] [H|H]; contradiction. Qed.

(** X1: a record that [get_weather] returns without a request is the data
    of an entry cached under the city's key, whose age at the time of the
    check is less than [_cache_duration]; the tool is left as it was. A
    stale record is never returned. *)
Theorem get_weather_cached_is_fresh net clk (city : string) self record self' :
  get_weather str_strip str_lower lib_msg coerce_float coerce_int coerce_str
    net clk city self
  = (Ok record, self', []) ->
  self' = self
  /\ exists e T,
      _cache self !! cache_key str_strip str_lower city = Some e
      /\ entry_data e = record
      /\ entry_timestamp e = Some T
      /\ at_check clk - T < _cache_duration.
Proof.
  intros H.
  destruct (get_weather_cases net clk city self)
    as [[_ Hc]|[(_ & e & He & Hv & Hc)|(_ & _ & res & _ & Hc)]];
    rewrite Hc in H; try discriminate.
  injection H as <- <-. split; [done|].
  destruct (is_cache_valid_true _ _ Hv) as (T & HT & Hage). eauto 10.
Qed.

(** X2: a lookup that fails creates and changes no entry, and, unless
    the guard refused the city, leaves none under the key of the city it
    was asked for: failures are not cached. *)
Theorem get_weather_failure_adds_nothing net clk (city : string) self
    err self' sent :
  get_weather str_strip str_lower lib_msg coerce_float coerce_int coerce_str
    net clk city self
  = (Err err, self', sent) ->
  (forall k x, _cache self' !! k = Some x -> _cache self !! k = Some x)
  /\ (accepted str_strip city ->
      _cache self' !! cache_key str_strip str_lower city = None).
Proof.
  intros H.
  destruct (get_weather_cases net clk city self)
    as [[Hk Hc]|[(_ & e & He & Hv & Hc)|(_ & _ & res & _ & Hc)]];
    rewrite Hc in H; try discriminate.
  - injection H as _ <- _. split; [done|].
    intros Hacc. by destruct (accepted_not_refused city Hacc).
  - injection H as -> <- _. simpl. split.
    + intros k x Hx. by apply lookup_delete_Some in Hx as [_ Hx].
    + intros _. apply lookup_delete_eq.
Qed.

(** X3: a lookup touches the cache under the key of its city only, and
    never the configuration. *)
Theorem get_weather_frame net clk (city : string) self (k : string) :
  k <> cache_key str_strip str_lower city ->
  _cache (get_weather str_strip str_lower lib_msg coerce_float coerce_int
            coerce_str net clk city self).1.2 !! k
  = _cache self !! k
  /\ config (get_weather str_strip str_lower lib_msg coerce_float coerce_int
               coerce_str net clk city self).1.2
     = config self.
Proof.
  intros Hk.
  destruct (get_weather_cases net clk city self)
    as [[_ Hc]|[(_ & e & He & Hv & Hc)|(_ & _ & res & _ & Hc)]];
    rewrite Hc; simpl; try done.
  split; [|done]. unfold cache_after_fetch.
  destruct res; [rewrite lookup_insert_ne by done|];
    by rewrite lookup_delete_ne.
Qed.

(** X4: after a lookup that succeeds, the city is one that the guard
    accepts and the record returned is the data of the entry under the
    city's key; when a request was sent the entry carries the time of
    storing. *)
Theorem get_weather_ok_cached net clk (city : string) self record self' sent :
  get_weather str_strip str_lower lib_msg coerce_float coerce_int coerce_str
    net clk city self
  = (Ok record, self', sent) ->
  accepted str_strip city
  /\ exists e,
      _cache self' !! cache_key str_strip str_lower city = Some e
      /\ entry_data e = record
      /\ (sent <> [] -> entry_timestamp e = Some (at_store clk)).
Proof.
  intros H.
  destruct (get_weather_cases net clk city self)
    as [[_ Hc]|[(Hk & e & He & Hv & Hc)|(Hk & _ & res & _ & Hc)]];
    rewrite Hc in H; try discriminate.
  - injection H as <- <- <-. split; [done|]. exists e. by repeat split.
  - injection H as -> <- _. split; [done|]. simpl.
    eexists. split; [apply lookup_insert_eq|]. by repeat split.
Qed.

(** X5: a lookup sends a request exactly when the guard accepts the city
    (it is not empty and [str.strip] does not empty it) and the cache
    has no fresh entry under its key, and then it sends one: the request
    of the city, never a second one. *)
Theorem get_weather_request_iff net clk (city : string) self :
  let sent :=
    (get_weather str_strip str_lower lib_msg coerce_float coerce_int coerce_str
       net clk city self).2 in
  (sent = []
   /\ (city = "" \/ str_strip city = ""
       \/ exists e,
            _cache self !! cache_key str_strip str_lower city = Some e
            /\ _is_cache_valid (at_check clk) e = true))
  \/ (sent = [fetch_request str_strip (config self) city]
      /\ accepted str_strip city
      /\ forall e,
           _cache self !! cache_key str_strip str_lower city = Some e ->
           _is_cache_valid (at_check clk) e = false).
Proof.
  destruct (get_weather_cases net clk city self)
    as [[[Hk|Hk] Hc]|[(Hk & e & He & Hv & Hc)|(Hk & Hs & res & _ & Hc)]];
    rewrite Hc; simpl; eauto 10.
Qed.

(** X6: the cache stays well formed. It is so when the tool is built and
    after [clear_cache], and [get_weather] keeps it so: every key is the
    normal form of a city that the guard accepts, every entry has its
    timestamp. *)
Theorem cache_wf_invariant :
  (forall cfg, cache_wf str_strip str_lower (_cache (WeatherTool_init cfg)))
  /\ (forall self,
        cache_wf str_strip str_lower (_cache (clear_cache self).1.2))
  /\ (forall net clk (city : string) self,
        cache_wf str_strip str_lower (_cache self) ->
        cache_wf str_strip str_lower
          (_cache (get_weather str_strip str_lower lib_msg coerce_float
                     coerce_int coerce_str net clk city self).1.2)).
Proof.
  split; [|split].
  - intros cfg k e. simpl. by rewrite lookup_empty.
  - intros self k e. simpl. by rewrite lookup_empty.
  - intros net clk city self Hwf.
    destruct (get_weather_cases net clk city self)
      as [[_ Hc]|[(_ & e & He & Hv & Hc)|(Hk & _ & res & _ & Hc)]];
      rewrite Hc; simpl; try done.
    intros k e. unfold cache_after_fetch. destruct res as [r|err].
    + rewrite lookup_insert. case_decide as Heq.
      * intros [= <-]. subst k. simpl.
        split; [by exists city | by eexists].
      * intros Hl. apply lookup_delete_Some in Hl as [_ Hl]. by apply Hwf.
    + intros Hl. apply lookup_delete_Some in Hl as [_ Hl]. by apply Hwf.
Qed.

(** X7: after [clear_cache] the next lookup of any city that the guard
    accepts goes to the service, whatever was cached before. *)
Theorem clear_then_lookup_fetches net clk (city : string) self :
  accepted str_strip city ->
  (get_weather str_strip str_lower lib_msg coerce_float coerce_int coerce_str
     net clk city (clear_cache self).1.2).2
  = [fetch_request str_strip (config self) city].
Proof.
  intros Hk.
  destruct (get_weather_cases net clk city (clear_cache self).1.2)
    as [[Hk' _]|[(_ & e & He & _)|(_ & _ & res & _ & Hc)]].
  - by destruct (accepted_not_refused city Hk).
  - simpl in He. by rewrite lookup_empty in He.
  - by rewrite Hc.
Qed.

(** X20: the cache knows a city by its key only. Of two spellings that
    the guard accepts and that have the same key, both are answered from
    the cache, with the same record and no request, or both go to the
    service, each with its own spelling in the request. *)
Theorem spellings_share_entry net clk (city city' : string) self :
  accepted str_strip city ->
  accepted str_strip city' ->
  cache_key str_strip str_lower city' = cache_key str_strip str_lower city ->
  let first :=
    get_weather str_strip str_lower lib_msg coerce_float coerce_int
      coerce_str net clk city self in
  let second :=
    get_weather str_strip str_lower lib_msg coerce_float coerce_int
      coerce_str net clk city' self in
  (first.2 = [] /\ second = first /\ is_ok first.1.1 = true)
  \/ (first.2 = [fetch_request str_strip (config self) city]
      /\ second.2 = [fetch_request str_strip (config self) city']).
Proof.
  intros Hc Hc' Hkey. cbv zeta.
  destruct (get_weather_cases net clk city self)
    as [[Hk _]|[(_ & e & He & Hv & Hg)|(_ & Hs & res & _ & Hg)]].
  - by destruct (accepted_not_refused city Hc).
  - left. rewrite Hg. simpl. split; [done|]. split; [|done].
    destruct (get_weather_cases net clk city' self)
      as [[Hk _]|[(_ & e' & He' & _ & Hg')|(_ & Hs' & _)]].
    + by destruct (accepted_not_refused city' Hc').
    + rewrite Hg'. rewrite Hkey, He in He'. by injection He' as <-.
    + rewrite Hkey in Hs'. by rewrite (Hs' e He) in Hv.
  - right. rewrite Hg. simpl. split; [done|].
    destruct (get_weather_cases net clk city' self)
      as [[Hk _]|[(_ & e' & He' & Hv' & _)|(_ & _ & res' & _ & Hg')]].
    + by destruct (accepted_not_refused city' Hc').
    + rewrite Hkey in He'. by rewrite (Hs e' He') in Hv'.
    + by rewrite Hg'.
Qed.

End CacheStoreMore.

(** ** More on the fetch client *)

Section FetchMore.

Variable str_strip : string -> string.
Variable str_lower : string -> string.
Variable lib_msg : exn -> string.
Variable coerce_float : Json -> option Q.
Variable coerce_int : Json -> option Z.
Variable coerce_str : Json -> option string.

(** What [_parse_response] raises is a [WeatherAPIError] with a message. *)
Lemma parse_error_shape now data e :
  _parse_response lib_msg coerce_float coerce_int coerce_str now data = Err e ->
  exists m, e = WeatherAPIError m.
Proof.
  unfold _parse_response.
  destruct (parse_body _ _ _ _ _) as [r|e']; [done|].
  destruct (is_KeyError e'); intros [= <-]; eauto.
Qed.

(** X8: when [requests.get] raises a transport error, the fetch fails with
    [NetworkError]: for a timeout the message names the city, for any
    other request error it carries the text of that error. One request
    was sent and none is repeated. *)
Theorem fetch_transport_failure cfg net now (city : string) e :
  net (fetch_request str_strip cfg city) = Raised e ->
  is_RequestException e = true ->
  is_HTTPError e = false ->
  _fetch_from_api str_strip lib_msg coerce_float coerce_int coerce_str
    cfg net now city
  = (Err (NetworkError
            (if is_Timeout e then "Timeout ao buscar " ++ city
             else "Erro de conexão: " ++ str_exn lib_msg e)),
     [fetch_request str_strip cfg city]).
Proof.
  intros Hnet Hreq Hhttp. unfold _fetch_from_api, fetch_except.
  rewrite Hnet, Hhttp, Hreq. by destruct (is_Timeout e).
Qed.

(** X9: when the response has no error status and a JSON body, the fetch
    returns what the parser makes of the body; a failure of the parser
    leaves the fetch wrapped once more, as a [WeatherAPIError] whose
    message is ["Erro inesperado: "] followed by the parser's message. *)
Theorem fetch_parses_body cfg net now (city : string) (r : Response) data :
  net (fetch_request str_strip cfg city) = Responded r ->
  ~ error_status (status_code r) ->
  json_body r = Some data ->
  _fetch_from_api str_strip lib_msg coerce_float coerce_int coerce_str
    cfg net now city
  = (match _parse_response lib_msg coerce_float coerce_int coerce_str
             now data with
     | Ok weather_data => Ok weather_data
     | Err e => Err (WeatherAPIError
                       ("Erro inesperado: " ++ str_exn lib_msg e))
     end,
     [fetch_request str_strip cfg city]).
Proof.
  intros Hnet Hstatus Hbody. unfold _fetch_from_api, response_json.
  rewrite Hnet, (raise_for_status_pass r Hstatus), Hbody. simpl.
  destruct (_parse_response _ _ _ _ now data) as [wd|e] eqn:Hp; [done|].
  by destruct (parse_error_shape _ _ _ Hp) as (m & ->).
Qed.

(** X10: whatever [get_weather] raises is one of the errors of
    exceptions.py, as long as [requests.get] itself raises no
    [HTTPError] (only [raise_for_status] does). *)
Theorem get_weather_errors_typed net clk (city : string) self e self' sent :
  (forall req e', net req = Raised e' -> is_HTTPError e' = false) ->
  get_weather str_strip str_lower lib_msg coerce_float coerce_int coerce_str
    net clk city self
  = (Err e, self', sent) ->
  is_WeatherAPIError e = true.
Proof.
  intros Hnet H.
  destruct (get_weather_cases str_strip str_lower lib_msg coerce_float coerce_int coerce_str
              net clk city self)
    as [[_ Hc]|[(_ & x & _ & _ & Hc)|(_ & _ & res & Hf & Hc)]];
    rewrite Hc in H; try discriminate.
  - by injection H as <- _ _.
  - injection H as -> _ _. revert Hf. unfold _fetch_from_api.
    destruct (net (fetch_request str_strip (config self) city)) as [r|e'] eqn:Hn.
    + cbv zeta. destruct (bind (raise_for_status r) _); [done|].
      intros [= <-]. apply fetch_except_typed.
    + intros [= <-]. unfold fetch_except.
      rewrite (Hnet _ _ Hn).
      by destruct (is_Timeout e'), (is_RequestException e').
Qed.

End FetchMore.

(** ** More on the parser *)

Section ParserMore.

Variable lib_msg : exn -> string.
Variable coerce_float : Json -> option Q.
Variable coerce_int : Json -> option Z.
Variable coerce_str : Json -> option string.

(** X11: the parser reads four keys of the body, ["name"], ["main"],
    ["weather"] and ["sys"]: two bodies that agree on them give the same
    result, so unknown fields are ignored. *)
Theorem parse_reads_four_keys now (d d' : list (string * Json)) :
  dict_get d "name" = dict_get d' "name" ->
  dict_get d "main" = dict_get d' "main" ->
  dict_get d "weather" = dict_get d' "weather" ->
  dict_get d "sys" = dict_get d' "sys" ->
  _parse_response lib_msg coerce_float coerce_int coerce_str now (JDict d)
  = _parse_response lib_msg coerce_float coerce_int coerce_str now (JDict d').
Proof.
  intros Hn Hm Hw Hs. unfold _parse_response, parse_body. simpl.
  by rewrite Hn, Hm, Hw, Hs.
Qed.

End ParserMore.

(** ** More on the weather models *)

Lemma round1_in_range (v : Q) :
  temperature_ok v = true -> temperature_ok (round1 v) = true.
Proof.
  rewrite !temperature_ok_iff. intros [Hlo Hhi].
  pose proof (round_half_even_bounds (v * (10 # 1))) as Hb.
  unfold round1. set (z := round_half_even (v * (10 # 1))) in *.
  destruct v as [n d]. simpl in Hb. rewrite Pos.mul_1_r in Hb.
  unfold Qle in *. simpl in *. nia.
Qed.

(** Rounding a number of tenths changes nothing. *)
Lemma round1_idem (v : Q) : round1 (round1 v) = round1 v.
Proof.
  unfold round1 at 1. f_equal.
  set (z := round_half_even (v * (10 # 1))).
  unfold round_half_even, round1. fold z. simpl.
  change (Z.pos (10 * 1)) with 10.
  replace (z * 10 / 10) with z by (symmetry; apply Z.div_mul; lia).
  replace ((z * 10) mod 10) with 0 by (symmetry; apply Z.mod_mul; lia).
  reflexivity.
Qed.

Lemma WeatherMain_init_eq (t tmin tmax : Q) (h : Z) (fl : Q) :
  WeatherMain_init t tmin tmax h fl
  = (if temperature_ok t && temperature_ok tmin && temperature_ok tmax
        && humidity_ok h
     then Ok (mkWeatherMain (round1 t) (round1 tmin) (round1 tmax) h fl)
     else Err (ValidationError "WeatherMain")).
Proof.
  unfold WeatherMain_init, validate_temperature, validate_humidity.
  fold (temperature_ok t) (temperature_ok tmin) (temperature_ok tmax)
       (humidity_ok h).
  by destruct (temperature_ok t), (temperature_ok tmin),
    (temperature_ok tmax), (humidity_ok h).
Qed.

(** X12: every [WeatherMain] that the construction returns has its
    current, minimum and maximum temperatures within [-50, 60], also
    after the rounding, and its humidity within 0..100; its feels-like
    temperature is the one given. Building it again from its own fields
    returns it unchanged. *)
Theorem WeatherMain_init_invariant (t tmin tmax : Q) (h : Z) (fl : Q) m :
  WeatherMain_init t tmin tmax h fl = Ok m ->
  temperature_ok (temp m) = true
  /\ temperature_ok (temp_min m) = true
  /\ temperature_ok (temp_max m) = true
  /\ humidity_ok (humidity m) = true
  /\ feels_like m = fl
  /\ WeatherMain_init (temp m) (temp_min m) (temp_max m) (humidity m)
       (feels_like m) = Ok m.
Proof.
  rewrite WeatherMain_init_eq.
  destruct (temperature_ok t) eqn:H1; [|done].
  destruct (temperature_ok tmin) eqn:H2; [|done].
  destruct (temperature_ok tmax) eqn:H3; [|done].
  destruct (humidity_ok h) eqn:H4; [|done].
  intros [= <-]. simpl.
  pose proof (round1_in_range t H1) as H1'.
  pose proof (round1_in_range tmin H2) as H2'.
  pose proof (round1_in_range tmax H3) as H3'.
  repeat (split; [done|]).
  rewrite WeatherMain_init_eq.
  by rewrite H1', H2', H3', H4, !round1_idem.
Qed.

Lemma WeatherMain_init_range (t tmin tmax : Q) (h : Z) (fl : Q) m :
  WeatherMain_init t tmin tmax h fl = Ok m ->
  temperature_ok (temp m) = true
  /\ temperature_ok (temp_min m) = true
  /\ temperature_ok (temp_max m) = true
  /\ humidity_ok (humidity m) = true.
Proof.
  rewrite WeatherMain_init_eq.
  destruct (temperature_ok t) eqn:H1; [|done].
  destruct (temperature_ok tmin) eqn:H2; [|done].
  destruct (temperature_ok tmax) eqn:H3; [|done].
  destruct (humidity_ok h) eqn:H4; [|done].
  intros [= <-]. simpl. by rewrite !round1_in_range.
Qed.

Section ParserRange.

Variable lib_msg : exn -> string.
Variable coerce_float : Json -> option Q.
Variable coerce_int : Json -> option Z.
Variable coerce_str : Json -> option string.

Lemma parse_body_main now data r :
  parse_body coerce_float coerce_int coerce_str now data = Ok r ->
  exists t tmin tmax h fl,
    WeatherMain_new coerce_float coerce_int t tmin tmax h fl = Ok (main r).
Proof.
  unfold parse_body. intros H.
  repeat match type of H with
         | bind _ _ = Ok _ =>
             let x := fresh "x" in let Hx := fresh "Hx" in
             apply bind_ok in H; destruct H as (x & Hx & H)
         end.
  unfold WeatherData_new in H.
  destruct (coerce_str _); [|done].
  match goal with
  | Hm : WeatherMain_new _ _ _ _ _ _ _ = Ok ?m |- _ =>
      assert (main r = m) as ->; [|eauto 10]
  end.
  match type of H with
  | context [match ?c with JNull => _ | _ => _ end] => destruct c
  end;
    try (by injection H as <-);
    destruct (coerce_str _); try done; by injection H as <-.
Qed.

(** X13: every record the parser returns has its current, minimum and
    maximum temperatures within [-50, 60] and its humidity within
    0..100, whatever the body and the conversions were. *)
Theorem parse_ok_in_range now data r :
  _parse_response lib_msg coerce_float coerce_int coerce_str now data = Ok r ->
  temperature_ok (temp (main r)) = true
  /\ temperature_ok (temp_min (main r)) = true
  /\ temperature_ok (temp_max (main r)) = true
  /\ humidity_ok (humidity (main r)) = true.
Proof.
  unfold _parse_response.
  destruct (parse_body _ _ _ now data) as [r'|e] eqn:Hb;
    [|by destruct (is_KeyError e)].
  intros [= <-].
  destruct (parse_body_main _ _ _ Hb) as (t & tmin & tmax & h & fl & Hm).
  unfold WeatherMain_new in Hm.
  destruct (coerce_float t), (coerce_float tmin), (coerce_float tmax),
    (coerce_int h), (coerce_float fl); try done.
  by apply WeatherMain_init_range in Hm.
Qed.

End ParserRange.

(** ** The statistics of the cache *)

Lemma count_valid_le now_at i entries :
  (count_valid now_at i entries <= length entries)%nat.
Proof.
  revert i. induction entries as [|e es IH]; intros i; simpl; [lia|].
  specialize (IH (S i)). destruct (_is_cache_valid (now_at i) e); lia.
Qed.

Lemma map_fmap {A B : Type} (f : A -> B) (l : list A) : map f l = f <$> l.
Proof. induction l as [|x l IH]; simpl; [done|]. by rewrite IH. Qed.

(** X14: in the statistics the valid entries are at most the cities,
    valid and expired entries add up to the cities, and the expired ones
    are never negative; the cities listed are the keys of the cache, each
    once. *)
Theorem cache_info_counts (now_at : nat -> Time) (self : WeatherTool) :
  let info := get_cache_info now_at self in
  (valid_entries info <= total_cities info)%nat
  /\ Z.of_nat (valid_entries info) + expired_entries info
     = Z.of_nat (total_cities info)
  /\ 0 <= expired_entries info
  /\ length (cached_cities info) = total_cities info
  /\ NoDup (cached_cities info)
  /\ (forall k, k ∈ cached_cities info <-> is_Some (_cache self !! k)).
Proof.
  unfold get_cache_info. simpl.
  pose proof (count_valid_le now_at 0 (map snd (map_to_list (_cache self))))
    as Hle.
  rewrite length_map, length_map_to_list in Hle.
  split; [done|]. split; [lia|]. split; [lia|].
  rewrite length_map, length_map_to_list. split; [done|].
  rewrite map_fmap. split; [apply NoDup_fst_map_to_list|].
  intros k. rewrite list_elem_of_fmap. split.
  - intros ([k' e] & -> & Hin). apply elem_of_map_to_list in Hin. by eexists.
  - intros [e He]. exists (k, e). split; [done|].
    by apply elem_of_map_to_list.
Qed.

(** ** The convenience methods *)

Section ToolMethodsFacts.

Variable str_strip : string -> string.
Variable str_lower : string -> string.
Variable lib_msg : exn -> string.
Variable coerce_float : Json -> option Q.
Variable coerce_int : Json -> option Z.
Variable coerce_str : Json -> option string.
Variable isoformat : Time -> string.
Variable str_float : Q -> string.


End ToolMethodsFacts.

(** ** The settings *)

(** X16: [get_settings] returns a configuration only with an API key
    that is not empty and that [str.strip] does not empty; the
    configuration then holds the values supplied or the defaults, and
    its timeout lies within 1..30. With no such key it raises the
    [ValueError] that asks for OPENWEATHER_API_KEY, and with a timeout
    outside 1..30 the validation error of the configuration. *)
Theorem get_settings_checks (str_strip : string -> string)
    (key url : option string) (t : option Z) :
  match Settings.get_settings str_strip key url t with
  | inr config =>
      (exists k, key = Some k /\ k <> "" /\ str_strip k <> "")
      /\ api_key config = key
      /\ base_url config = default Settings.default_base_url url
      /\ timeout config = default 10 t
      /\ 1 <= timeout config <= 30
  | inl Settings.ConfigValidationError =>
      exists t', t = Some t' /\ ~ 1 <= t' <= 30
  | inl (Settings.ValueError msg) =>
      msg = "API key não configurada. Adicione OPENWEATHER_API_KEY no .env"
      /\ 1 <= default 10 t <= 30
      /\ (key = None
          \/ exists k, key = Some k /\ (k = "" \/ str_strip k = ""))
  end.
Proof.
  unfold Settings.get_settings, Settings.WeatherConfig_new,
    Settings.default_timeout.
  destruct ((1 <=? _) && (_ <=? 30)) eqn:Ht.
  - apply andb_true_iff in Ht as [H1 H2].
    apply Z.leb_le in H1, H2.
    unfold Settings.api_key_missing. simpl.
    destruct key as [k|]; simpl.
    + destruct (negb (PyStr.truthy k) || _) eqn:Hg.
      * split; [done|]. split; [by destruct t|]. right. exists k.
        split; [done|]. by apply guard_iff.
      * simpl. split.
        { exists k. split; [done|]. by apply guard_false. }
        by destruct url, t.
    + split; [done|]. split; [by destruct t | by left].
  - destruct t as [t'|]; [|done]. exists t'. split; [done|].
    apply andb_false_iff in Ht. rewrite Z.leb_gt, Z.leb_gt in Ht. lia.
Qed.

(** ** The interface for agents *)

Section AgentsFacts.

Variable str_strip : string -> string.
Variable str_lower : string -> string.
Variable lib_msg : exn -> string.
Variable coerce_float : Json -> option Q.
Variable coerce_int : Json -> option Z.
Variable coerce_str : Json -> option string.
Variable isoformat : Time -> string.
Variable py_str : Json -> string.
Variable py_gt : Json -> Json -> result bool.
Variable py_lt : Json -> Json -> result bool.
Variable py_ge : Json -> Json -> result bool.
Variable env_api_key : option string.
Variable env_base_url : option string.
Variable env_timeout : option Z.

Abbreviation agent_get :=
  (Agents.get_weather str_strip str_lower lib_msg coerce_float coerce_int
     coerce_str isoformat py_str env_api_key env_base_url env_timeout).

(** The dict of [to_agent_format] has no ["current_weather"]. *)
Lemma success_dict_agent (a : AgentFormat) :
  Agents.success_dict py_str (agent_dict a)
  = Err (KeyError "current_weather").
Proof. reflexivity. Qed.

Lemma failure_dict_fails (city : string) (e : exn) :
  subscript (Agents.failure_dict lib_msg city e) "success" = Ok (JBool false).
Proof.
  unfold Agents.failure_dict.
  by destruct (is_CityNotFoundError e), (is_WeatherAPIError e).
Qed.

(** What [Agents.get_weather] returns, in terms of the tool's lookup. *)
Lemma agent_get_unfold net clk (city : string) g :
  match agent_get net clk city g with
  | inl e =>
      g = None
      /\ exists se,
          e = Agents.SettingsRaised se
          /\ Settings.get_settings str_strip env_api_key env_base_url env_timeout
             = inl se
  | inr (d, g', sent) =>
      exists tool res tool',
        Agents._get_tool str_strip env_api_key env_base_url env_timeout g = inr tool
        /\ get_weather str_strip str_lower lib_msg coerce_float coerce_int coerce_str
             net clk city tool = (res, tool', sent)
        /\ g' = Some tool'
        /\ d = Agents.failure_dict lib_msg city
                 match res with
                 | Ok _ => KeyError "current_weather"
                 | Err e => e
                 end
  end.
Proof.
  unfold Agents.get_weather, Agents._get_tool, Settings.WeatherTool_new.
  assert (Hcall : forall tool,
    match
      (let '(res, tool', sent) :=
         get_weather_for_agent str_strip str_lower lib_msg coerce_float
           coerce_int coerce_str isoformat net clk city tool in
       @inr Agents.raised _
         (match (let* a := res in Agents.success_dict py_str (agent_dict a))
          with
          | Ok d => d
          | Err e => Agents.failure_dict lib_msg city e
          end, Some tool', sent))
    with
    | inl _ => False
    | inr (d, g', sent) =>
        exists res tool',
          get_weather str_strip str_lower lib_msg coerce_float coerce_int coerce_str
            net clk city tool = (res, tool', sent)
          /\ g' = Some tool'
          /\ d = Agents.failure_dict lib_msg city
                   match res with
                   | Ok _ => KeyError "current_weather"
                   | Err e => e
                   end
    end).
  { intros tool. unfold get_weather_for_agent.
    destruct (get_weather _ _ _ _ _ _ net clk city tool) as [[res tool'] sent].
    exists res, tool'. split; [done|]. split; [done|].
    destruct res as [r|e]; simpl; [|done].
    unfold to_agent_format. rewrite first_description_total.
    unfold bind. by rewrite success_dict_agent. }
  destruct g as [tool|].
  - specialize (Hcall tool).
    destruct (let '(_, _, _) := get_weather_for_agent _ _ _ _ _ _ _ _ _ _ _ in _)
      as [|[[d g'] sent]]; [done|].
    destruct Hcall as (res & tool' & H1 & H2 & H3). by exists tool, res, tool'.
  - destruct (Settings.get_settings _ _ _ _) as [se|c]; [by eauto|].
    specialize (Hcall (WeatherTool_init c)).
    destruct (let '(_, _, _) := get_weather_for_agent _ _ _ _ _ _ _ _ _ _ _ in _)
      as [|[[d g'] sent]]; [done|].
    destruct Hcall as (res & tool' & H1 & H2 & H3).
    by exists (WeatherTool_init c), res, tool'.
Qed.

(** X17: the agents' [get_weather] never reports success. When the tool
    cannot be built it raises the error of the settings. Otherwise it
    returns a dict whose ["success"] is false: the failure of the tool's
    lookup, or, when the lookup returned a record, the failure
    ["unknown"] with the message ["Erro inesperado: 'current_weather'"],
    since the dict of [to_agent_format] has no such key. The lookup has
    then taken place all the same: the record is cached and the request
    was sent. *)
Theorem agents_get_weather_never_succeeds net clk (city : string) g :
  match agent_get net clk city g with
  | inl e => g = None /\ exists se, e = Agents.SettingsRaised se
  | inr (d, g', sent) =>
      subscript d "success" = Ok (JBool false)
      /\ exists tool res tool',
          Agents._get_tool str_strip env_api_key env_base_url env_timeout g = inr tool
          /\ get_weather str_strip str_lower lib_msg coerce_float coerce_int coerce_str
               net clk city tool = (res, tool', sent)
          /\ g' = Some tool'
          /\ (forall r, res = Ok r ->
              d = JDict [("success", JBool false); ("error", JStr "unknown");
                         ("message",
                          JStr "Erro inesperado: 'current_weather'")])
  end.
Proof.
  pose proof (agent_get_unfold net clk city g) as H.
  destruct (agent_get net clk city g) as [e|[[d g'] sent]].
  - destruct H as (Hg & se & -> & _). eauto.
  - destruct H as (tool & res & tool' & H1 & H2 & H3 & ->).
    split; [apply failure_dict_fails|].
    exists tool, res, tool'. repeat (split; [done|]).
    by intros r ->.
Qed.

(** X18: [is_beach_weather] never analyses anything: it returns, or
    raises, exactly what the agents' [get_weather] does for the city,
    whatever the minimum temperature. *)
Theorem is_beach_weather_is_get_weather net clk (city : string)
    (min_temp : Json) g :
  Agents.is_beach_weather str_strip str_lower lib_msg coerce_float
    coerce_int coerce_str isoformat py_str py_ge env_api_key env_base_url env_timeout
    net clk city min_temp g
  = agent_get net clk city g.
Proof.
  unfold Agents.is_beach_weather.
  pose proof (agent_get_unfold net clk city g) as H.
  destruct (agent_get net clk city g) as [e|[[d g'] sent]]; [done|].
  destruct H as (tool & res & tool' & _ & _ & _ & ->).
  by rewrite failure_dict_fails.
Qed.

Lemma gather_all_fail world cities :
  forall i results errors g sent,
    match Agents.gather str_strip str_lower lib_msg coerce_float coerce_int
            coerce_str isoformat py_str env_api_key env_base_url env_timeout
            world i cities results errors g sent with
    | inl e => exists se, e = Agents.SettingsRaised se
    | inr (results', errors', _, _) =>
        results' = results /\ errors' = (errors ++ cities)%list
    end.
Proof.
  induction cities as [|city rest IH]; intros i results errors g sent; simpl.
  - by rewrite app_nil_r.
  - pose proof (agent_get_unfold (world i).1 (world i).2 city g) as H.
    destruct (agent_get (world i).1 (world i).2 city g)
      as [e|[[d g'] sent']].
    + destruct H as (_ & se & -> & _). eauto.
    + destruct H as (tool & res & tool' & _ & _ & _ & ->).
      rewrite failure_dict_fails. simpl.
      specialize (IH (S i) results (errors ++ [city])%list g'
                    (sent ++ sent')%list).
      destruct (Agents.gather _ _ _ _ _ _ _ _ _ _ _ _ _ _ _ _ _ _)
        as [e|[[[rs es] g''] sent'']]; [done|].
      destruct IH as [-> ->]. by rewrite <- app_assoc.
Qed.

(** X19: [compare_weather] never compares anything: for every list of
    cities, empty or not, it returns the failure ["no_data"], unless the
    tool cannot be built and the error of the settings is raised. *)
Theorem compare_weather_no_data world (cities : list string) g :
  match Agents.compare_weather str_strip str_lower lib_msg coerce_float
          coerce_int coerce_str isoformat py_str py_gt py_lt env_api_key env_base_url env_timeout
          world cities g with
  | inl e => exists se, e = Agents.SettingsRaised se
  | inr (d, _, _) => d = Agents.no_data
  end.
Proof.
  unfold Agents.compare_weather.
  pose proof (gather_all_fail world cities 0%nat [] [] g []) as H.
  destruct (Agents.gather _ _ _ _ _ _ _ _ _ _ _ _ _ _ _ _ _ _)
    as [e|[[[rs es] g'] sent]]; [done|].
  by destruct H as [-> _].
Qed.

End AgentsFacts.

(** ** Spelling of the city, requests and the content of a record *)

Section Requests.

Variable str_strip : string -> string.
Variable str_lower : string -> string.
Variable lib_msg : exn -> string.
Variable coerce_float : Json -> option Q.
Variable coerce_int : Json -> option Z.
Variable coerce_str : Json -> option string.

(** X21: every request that a lookup sends from a tool whose
    configuration came out of [get_settings] goes to the configured URL
    with the stripped city, which is not empty, an API key that is not
    empty and that [str.strip] does not empty, metric units, the
    Portuguese locale and a timeout within 1..30 seconds. *)
Theorem requests_well_formed key url t net clk (city : string) self req :
  Settings.get_settings str_strip key url t = inr (config self) ->
  In req (get_weather str_strip str_lower lib_msg coerce_float coerce_int
            coerce_str net clk city self).2 ->
  req_url req = base_url (config self)
  /\ q req = str_strip city
  /\ q req <> ""
  /\ (exists k, appid req = Some k /\ k <> "" /\ str_strip k <> "")
  /\ units req = "metric"
  /\ lang req = "pt_br"
  /\ 1 <= req_timeout req <= 30.
Proof.
  intros Hcfg Hin.
  destruct (get_weather_cases str_strip str_lower lib_msg coerce_float
              coerce_int coerce_str net clk city self)
    as [[_ Hc]|[(_ & e & _ & _ & Hc)|(Hk & _ & res & _ & Hc)]];
    rewrite Hc in Hin; simpl in Hin; try done.
  destruct Hin as [<-|[]]. simpl.
  revert Hcfg. unfold Settings.get_settings, Settings.WeatherConfig_new.
  destruct ((1 <=? _) && (_ <=? 30)) eqn:Ht; [|done].
  unfold Settings.api_key_missing. simpl.
  destruct key as [k|]; [|done].
  destruct (negb (PyStr.truthy k) || _) eqn:Hg; [done|].
  intros [= <-]. simpl.
  apply andb_true_iff in Ht as [H1 H2]. apply Z.leb_le in H1, H2.
  repeat (split; [done|]).
  split; [by destruct Hk|].
  split; [|done]. exists k. split; [done|]. by apply guard_false.
Qed.

(** X22: a record that the parser returns reflects the body: its name is
    the converted ["name"], its descriptions are those of the items of
    ["weather"] (none when the key is absent), in their order and none
    dropped, its country is the converted ["country"] of ["sys"] or
    nothing, and its timestamp is the reading of the clock. *)
Theorem parse_ok_reflects_body now data r :
  _parse_response lib_msg coerce_float coerce_int coerce_str now data = Ok r ->
  exists d,
    data = JDict d
    /\ (exists v, dict_get d "name" = Some v
                  /\ coerce_str v = Some (city_name r))
    /\ (exists items,
          py_iter (default (JList []) (dict_get d "weather")) = Ok items
          /\ mapM (parse_description coerce_str) items = Ok (weather r))
    /\ (exists sys c,
          py_get data "sys" (JDict []) = Ok sys
          /\ py_get sys "country" JNull = Ok c
          /\ country r = match c with JNull => None | _ => coerce_str c end)
    /\ timestamp r = now.
Proof.
  unfold _parse_response.
  destruct (parse_body _ _ _ now data) as [r'|e] eqn:Hb;
    [|by destruct (is_KeyError e)].
  intros [= ->]. pose proof (parse_body_timestamp _ _ _ _ _ _ Hb) as Hts.
  unfold parse_body in Hb.
  repeat match type of Hb with
         | bind _ _ = Ok _ =>
             let x := fresh "x" in let Hx := fresh "Hx" in
             apply bind_ok in Hb; destruct Hb as (x & Hx & Hb)
         end.
  match goal with
  | H : py_get data "name" _ = Ok _ |- _ =>
      apply py_get_ok in H as (d & -> & _)
  end.
  exists d. split; [done|].
  repeat match goal with
         | H : subscript (JDict d) "main" = Ok _ |- _ => clear H
         end.
  match goal with
  | H : subscript (JDict d) "name" = Ok ?v |- _ =>
      apply subscript_ok in H as (d' & [= <-] & Hname)
  end.
  match goal with
  | H : py_get (JDict d) "weather" _ = Ok ?v |- _ =>
      apply py_get_ok in H as (d' & [= <-] & ->)
  end.
  unfold WeatherData_new in Hb.
  destruct (coerce_str _) as [name|] eqn:Hcn; [|done].
  lazymatch goal with
  | Hi : py_iter _ = Ok ?items, Hm : mapM _ ?items = Ok ?wl,
    Hs : py_get (JDict d) "sys" _ = Ok ?sys,
    Hc : py_get ?sys "country" _ = Ok ?c |- _ =>
      assert (weather r = wl
              /\ country r = match c with JNull => None | _ => coerce_str c end
              /\ city_name r = name) as (Hw & Hcountry & Hn);
      [| rewrite Hn, Hw; split; [eauto|];
         split; [exists items; by split|];
         split; [exists sys, c; by rewrite Hcountry | done] ]
  end.
  match type of Hb with
  | context [match ?c with JNull => _ | _ => _ end] => destruct c
  end;
    try (injection Hb as <-; by repeat split);
    match goal with
    | |- context [coerce_str ?c] => destruct (coerce_str c)
    end; try done; injection Hb as <-; by repeat split.
Qed.

End Requests.

(** ** The properties above on the sample data *)

Abbreviation sample_get :=
  (get_weather PyStr.strip PyStr.lower Sample.msg Sample.as_float Sample.as_int
    Sample.as_str).
Abbreviation sample_parse :=
  (_parse_response Sample.msg Sample.as_float Sample.as_int Sample.as_str).
Abbreviation sample_fetch :=
  (_fetch_from_api PyStr.strip Sample.msg Sample.as_float Sample.as_int Sample.as_str).

Lemma get_weather_cached_is_fresh_witness :
  Sample.tool_with_london 1 2 = Sample.tool_with_london 1 2
  /\ exists e T,
      _cache (Sample.tool_with_london 1 2)
        !! cache_key PyStr.strip PyStr.lower "London" = Some e
      /\ entry_data e = Sample.london_record 1
      /\ entry_timestamp e = Some T
      /\ at_check (mkClock (minutes 9) 0 0) - T < _cache_duration.
Proof.
  apply (get_weather_cached_is_fresh PyStr.strip PyStr.lower Sample.msg
           Sample.as_float Sample.as_int
           Sample.as_str Sample.unreachable (mkClock (minutes 9) 0 0)
           "London" (Sample.tool_with_london 1 2) (Sample.london_record 1)
           (Sample.tool_with_london 1 2)).
  vm_compute. reflexivity.
Defined.

Lemma get_weather_failure_adds_nothing_witness :
  (forall k x, _cache Sample.tool0 !! k = Some x ->
               _cache Sample.tool0 !! k = Some x)
  /\ (accepted PyStr.strip "Narnia" ->
      _cache Sample.tool0 !! cache_key PyStr.strip PyStr.lower "Narnia"
      = None).
Proof.
  apply (get_weather_failure_adds_nothing PyStr.strip PyStr.lower Sample.msg
           Sample.as_float
           Sample.as_int Sample.as_str (Sample.answers 404 "Not Found")
           (mkClock 0 1 2) "Narnia" Sample.tool0
           (CityNotFoundError "Cidade 'Narnia' não encontrada")
           Sample.tool0 [fetch_request PyStr.strip Sample.cfg "Narnia"]).
  vm_compute. reflexivity.
Defined.

Lemma get_weather_frame_witness :
  _cache (sample_get Sample.unreachable (mkClock (minutes 11) 0 0) "Paris"
            (Sample.tool_with_london 1 2)).1.2 !! "london"
  = _cache (Sample.tool_with_london 1 2) !! "london"
  /\ config (sample_get Sample.unreachable (mkClock (minutes 11) 0 0) "Paris"
              (Sample.tool_with_london 1 2)).1.2
     = config (Sample.tool_with_london 1 2).
Proof.
  apply (get_weather_frame PyStr.strip PyStr.lower Sample.msg
           Sample.as_float Sample.as_int
           Sample.as_str Sample.unreachable (mkClock (minutes 11) 0 0)
           "Paris" (Sample.tool_with_london 1 2) "london").
  vm_compute. discriminate.
Defined.

Lemma get_weather_ok_cached_witness :
  accepted PyStr.strip " London "
  /\ exists e,
      _cache (Sample.tool_with_london 1 2)
        !! cache_key PyStr.strip PyStr.lower " London " = Some e
      /\ entry_data e = Sample.london_record 1
      /\ ([Sample.london_request] <> [] ->
          entry_timestamp e = Some (at_store (mkClock 0 1 2))).
Proof.
  apply (get_weather_ok_cached PyStr.strip PyStr.lower Sample.msg
           Sample.as_float Sample.as_int
           Sample.as_str (Sample.serves Sample.london) (mkClock 0 1 2)
           " London " Sample.tool0 (Sample.london_record 1)
           (Sample.tool_with_london 1 2) [Sample.london_request]).
  vm_compute. reflexivity.
Defined.

Lemma clear_then_lookup_fetches_witness :
  (sample_get Sample.unreachable (mkClock 5 0 0) "London"
     (clear_cache (Sample.tool_with_london 1 2)).1.2).2
  = [fetch_request PyStr.strip (config (Sample.tool_with_london 1 2))
       "London"].
Proof.
  apply (clear_then_lookup_fetches PyStr.strip PyStr.lower Sample.msg
           Sample.as_float Sample.as_int
           Sample.as_str Sample.unreachable (mkClock 5 0 0) "London"
           (Sample.tool_with_london 1 2)).
  split; discriminate.
Defined.

(** London and its padded capitals meet the same entry while it is
    fresh. *)
Lemma spellings_share_entry_witness :
  let first :=
    sample_get Sample.unreachable (mkClock (minutes 9) 0 0) "London"
      (Sample.tool_with_london 1 2) in
  let second :=
    sample_get Sample.unreachable (mkClock (minutes 9) 0 0) "  LONDON "
      (Sample.tool_with_london 1 2) in
  (first.2 = [] /\ second = first /\ is_ok first.1.1 = true)
  \/ (first.2 = [fetch_request PyStr.strip Sample.cfg "London"]
      /\ second.2 = [fetch_request PyStr.strip Sample.cfg "  LONDON "]).
Proof.
  apply (spellings_share_entry PyStr.strip PyStr.lower Sample.msg
           Sample.as_float Sample.as_int Sample.as_str
           Sample.unreachable (mkClock (minutes 9) 0 0) "London" "  LONDON "
           (Sample.tool_with_london 1 2)).
  - split; discriminate.
  - split; discriminate.
  - reflexivity.
Defined.

Lemma fetch_transport_failure_witness :
  sample_fetch Sample.cfg Sample.unreachable 0 "London"
  = (Err (NetworkError
            (if is_Timeout Timeout then "Timeout ao buscar " ++ "London"
             else "Erro de conexão: " ++ str_exn Sample.msg Timeout)),
     [fetch_request PyStr.strip Sample.cfg "London"]).
Proof.
  apply (fetch_transport_failure PyStr.strip Sample.msg Sample.as_float
           Sample.as_int Sample.as_str Sample.cfg Sample.unreachable 0 "London" Timeout);
    reflexivity.
Defined.

Lemma fetch_parses_body_witness :
  sample_fetch Sample.cfg (Sample.serves Sample.london_no_weather) 0 "London"
  = (match sample_parse 0 Sample.london_no_weather with
     | Ok weather_data => Ok weather_data
     | Err e => Err (WeatherAPIError
                       ("Erro inesperado: " ++ str_exn Sample.msg e))
     end,
     [fetch_request PyStr.strip Sample.cfg "London"]).
Proof.
  apply (fetch_parses_body PyStr.strip Sample.msg Sample.as_float
           Sample.as_int Sample.as_str Sample.cfg (Sample.serves Sample.london_no_weather)
           0 "London"
           (mkResponse 200 "OK" Sample.url (Some Sample.london_no_weather))).
  - reflexivity.
  - unfold error_status. simpl. lia.
  - reflexivity.
Defined.

Lemma get_weather_errors_typed_witness :
  is_WeatherAPIError (CityNotFoundError "Cidade 'Narnia' não encontrada")
  = true.
Proof.
  apply (get_weather_errors_typed PyStr.strip PyStr.lower Sample.msg
           Sample.as_float Sample.as_int Sample.as_str (Sample.answers 404 "Not Found") (mkClock 0 1 2)
           "Narnia" Sample.tool0
           (CityNotFoundError "Cidade 'Narnia' não encontrada")
           Sample.tool0 [fetch_request PyStr.strip Sample.cfg "Narnia"]).
  - intros req e' H. discriminate H.
  - vm_compute. reflexivity.
Defined.

Lemma parse_reads_four_keys_witness :
  sample_parse 0
    (JDict [("name", JStr "London"); ("main", Sample.main_block)])
  = sample_parse 0
      (JDict [("wind", JDict [("speed", JFloat (41 # 10))]);
              ("name", JStr "London"); ("cod", JInt 200);
              ("main", Sample.main_block)]).
Proof.
  apply (parse_reads_four_keys Sample.msg Sample.as_float Sample.as_int
           Sample.as_str 0
           [("name", JStr "London"); ("main", Sample.main_block)]
           [("wind", JDict [("speed", JFloat (41 # 10))]);
            ("name", JStr "London"); ("cod", JInt 200);
            ("main", Sample.main_block)]);
    reflexivity.
Defined.

Lemma WeatherMain_init_invariant_witness :
  temperature_ok (temp Sample.london_main) = true
  /\ temperature_ok (temp_min Sample.london_main) = true
  /\ temperature_ok (temp_max Sample.london_main) = true
  /\ humidity_ok (humidity Sample.london_main) = true
  /\ feels_like Sample.london_main = 1493 # 100
  /\ WeatherMain_init (temp Sample.london_main) (temp_min Sample.london_main)
       (temp_max Sample.london_main) (humidity Sample.london_main)
       (feels_like Sample.london_main) = Ok Sample.london_main.
Proof.
  apply (WeatherMain_init_invariant (1556 # 100) (12 # 1) (181 # 10) 72
           (1493 # 100) Sample.london_main).
  reflexivity.
Defined.

Lemma parse_ok_in_range_witness :
  temperature_ok (temp (main (Sample.london_record 0))) = true
  /\ temperature_ok (temp_min (main (Sample.london_record 0))) = true
  /\ temperature_ok (temp_max (main (Sample.london_record 0))) = true
  /\ humidity_ok (humidity (main (Sample.london_record 0))) = true.
Proof.
  apply (parse_ok_in_range Sample.msg Sample.as_float Sample.as_int
           Sample.as_str 0 Sample.london (Sample.london_record 0)).
  vm_compute. reflexivity.
Defined.

Lemma requests_well_formed_witness :
  req_url Sample.london_request = base_url (config Sample.tool0)
  /\ q Sample.london_request = PyStr.strip " London "
  /\ q Sample.london_request <> ""
  /\ (exists k, appid Sample.london_request = Some k
                /\ k <> "" /\ PyStr.strip k <> "")
  /\ units Sample.london_request = "metric"
  /\ lang Sample.london_request = "pt_br"
  /\ 1 <= req_timeout Sample.london_request <= 30.
Proof.
  apply (requests_well_formed PyStr.strip PyStr.lower Sample.msg
           Sample.as_float Sample.as_int
           Sample.as_str (Some "0123456789abcdef0123456789abcdef") None None
           (Sample.serves Sample.london) (mkClock 0 1 2) " London "
           Sample.tool0 Sample.london_request).
  - reflexivity.
  - vm_compute. left. reflexivity.
Defined.

Lemma parse_ok_reflects_body_witness :
  exists d,
    Sample.london = JDict d
    /\ (exists v, dict_get d "name" = Some v
                  /\ Sample.as_str v = Some (city_name (Sample.london_record 7)))
    /\ (exists items,
          py_iter (default (JList []) (dict_get d "weather")) = Ok items
          /\ mapM (parse_description Sample.as_str) items
             = Ok (weather (Sample.london_record 7)))
    /\ (exists sys c,
          py_get Sample.london "sys" (JDict []) = Ok sys
          /\ py_get sys "country" JNull = Ok c
          /\ country (Sample.london_record 7)
             = match c with JNull => None | _ => Sample.as_str c end)
    /\ timestamp (Sample.london_record 7) = 7.
Proof.
  apply (parse_ok_reflects_body Sample.msg Sample.as_float Sample.as_int
           Sample.as_str 7 Sample.london (Sample.london_record 7)).
  vm_compute. reflexivity.
Defined.

(** ** Optional and missing keys of the body *)

Section ParserKeys.

Variable lib_msg : exn -> string.
Variable coerce_float : Json -> option Q.
Variable coerce_int : Json -> option Z.
Variable coerce_str : Json -> option string.

(** X23: the keys ["weather"] and ["sys"] are optional: a body without
    ["weather"] is parsed as the same body with an empty list of
    conditions, and a body without ["sys"] as the same body with an
    empty ["sys"] block. *)
Theorem parse_optional_keys now (d : list (string * Json)) :
  (dict_get d "weather" = None ->
   _parse_response lib_msg coerce_float coerce_int coerce_str now (JDict d)
   = _parse_response lib_msg coerce_float coerce_int coerce_str now
       (JDict (d ++ [("weather", JList [])])))
  /\ (dict_get d "sys" = None ->
      _parse_response lib_msg coerce_float coerce_int coerce_str now (JDict d)
      = _parse_response lib_msg coerce_float coerce_int coerce_str now
          (JDict (d ++ [("sys", JDict [])]))).
Proof.
  split; [apply parse_weather_default|].
  intros Hs. unfold _parse_response, parse_body. simpl.
  rewrite (dict_get_app_other d "name" "sys") by discriminate.
  rewrite (dict_get_app_other d "main" "sys") by discriminate.
  rewrite (dict_get_app_other d "weather" "sys") by discriminate.
  by rewrite (dict_get_app_same d "sys" _ Hs), Hs.
Qed.

(** X24: when the body has no ["main"] the message of the failure names
    ['main']; when its ["main"] block lacks some of the five numbers the
    message names the first one lacking, in the order temp, temp_min,
    temp_max, humidity, feels_like. *)
Theorem parse_names_first_missing now (d : list (string * Json)) :
  (dict_get d "main" = None ->
   _parse_response lib_msg coerce_float coerce_int coerce_str now (JDict d)
   = Err (WeatherAPIError
            "Dados incompletos da API: campo 'main' não encontrado"))
  /\ (forall m k rest,
        dict_get d "main" = Some (JDict m) ->
        absent m main_fields = k :: rest ->
        _parse_response lib_msg coerce_float coerce_int coerce_str now
          (JDict d)
        = Err (WeatherAPIError
                 ("Dados incompletos da API: campo '" ++ k
                  ++ "' não encontrado"))).
Proof.
  split; [apply parse_names_main|].
  intros m k rest. apply parse_names_main_field.
Qed.

End ParserKeys.
